(** * msupply-dashboard-app backend: a shallow embedding and its properties

    The Go packages [auth], [dbstore] and [server] of the Grafana plugin
    backend are embedded as Rocq functions, one module per package.  Go
    strings are byte strings ([string]); calls that log, touch the SQLite
    file or write an HTTP response run in a small state-and-panic monad over
    an explicit world.  Code of the Go standard library, of the Grafana SDK
    and of SQLite is represented by small models of the parts the sources
    call; results of calls the sources cannot decide (I/O errors, JSON
    decoding, the environment) are read from an explicit environment
    record. *)

From Stdlib Require Import ZArith Ascii Lia.
From stdpp Require Import base option list strings gmap.

Open Scope Z_scope.

(* ===================================================================== *)
(** * Part I: definitions *)
(* ===================================================================== *)

(** ** Go runtime: errors, panics, outcomes *)

Module Go.

(** A Go [error] is represented by the text its [Error()] method returns;
    a nil error is [None] of [option error]. *)
Definition error := string.

(** [errors.New(text)]. *)
Definition errors_New (text : string) : error := text.

(** What a panic carries: the value given to [panic(err)], or the runtime
    error raised by a method that dereferences a nil receiver. *)
Inductive PanicValue :=
| PanicError (err : error)
| NilPointerDereference.

(** How a call ends: it returns a value, or it unwinds with a panic. *)
Inductive Outcome (A : Type) :=
| Return (a : A)
| Panic (v : PanicValue).
Arguments Return {A} a.
Arguments Panic {A} v.

(** The usual result of a fallible Go call, [(value, nil)] or [(nil, err)]. *)
Inductive Result (A : Type) :=
| Ok (a : A)
| Err (e : error).
Arguments Ok {A} a.
Arguments Err {A} e.

(** [s[:k]] and [s[k:]] on byte strings, for [0 <= k <= len(s)]. *)
Fixpoint slice_to (k : nat) (s : string) : string :=
  match k, s with
  | S k', String c s' => String c (slice_to k' s')
  | _, _ => ""
  end.

Fixpoint slice_from (k : nat) (s : string) : string :=
  match k, s with
  | S k', String _ s' => slice_from k' s'
  | _, _ => s
  end.

End Go.

(** ** Grafana plugin SDK: the types of [backend] and [data] the sources use *)

Module Backend.

(** [time.Time], as seconds since the epoch. *)
Definition Time := Z.

Record TimeRange := { From : Time; To : Time }.

Record DataQuery := {
  RefID : string;
  JSON : string;
  TimeRange_ : TimeRange }.

Record QueryDataRequest := { Queries : list DataQuery }.

(** The values of a [data.Field] built by the sources: times or int64s. *)
Inductive FieldValues :=
| TimeValues (ts : list Time)
| Int64Values (ns : list Z).

Record Field := { FieldName : string; Values : FieldValues }.

Record Frame := { FrameName : string; Fields : list Field }.

(** [data.NewFrame(name)] and [data.NewField(name, nil, values)]. *)
Definition NewFrame (name : string) : Frame :=
  {| FrameName := name; Fields := [] |}.
Definition NewField (name : string) (values : FieldValues) : Field :=
  {| FieldName := name; Values := values |}.

Record DataResponse := { Frames : list Frame; Error : option Go.error }.

Record QueryDataResponse := { Responses : gmap string DataResponse }.

(** [backend.NewQueryDataResponse()]: an empty map of responses. *)
Definition NewQueryDataResponse : QueryDataResponse := {| Responses := ∅ |}.

Inductive HealthStatus :=
| HealthStatusUnknown
| HealthStatusOk
| HealthStatusError.

Record CheckHealthRequest := { PluginID : string }.

Record CheckHealthResult := { Status : HealthStatus; Message : string }.

End Backend.

(** ** The world a call runs in: logging and the state-and-panic monad *)

Module Runtime.
Import Go.

Inductive Level := LevelDebug | LevelInfo | LevelWarn | LevelError.

(** An argument of a log call after the message. *)
Inductive LogValue :=
| LogString (s : string)
| LogRequest (r : Backend.QueryDataRequest).

(** One call of [log.DefaultLogger]. *)
Record LogEntry := { level : Level; msg : string; args : list LogValue }.

(** The world: the data a package acts on and the log written so far
    (oldest entry first). *)
Record World (D : Type) := { data : D; logged : list LogEntry }.
Arguments data {D} w.
Arguments logged {D} w.

(** A call: from a world to the world it leaves and how it ended. *)
Definition M (D A : Type) : Type := World D -> World D * Outcome A.

Definition ret {D A} (a : A) : M D A := fun w => (w, Return a).

Definition bind {D A B} (m : M D A) (k : A -> M D B) : M D B :=
  fun w =>
    match m w with
    | (w', Return a) => k a w'
    | (w', Panic v) => (w', Panic v)
    end.

(** [panic(v)]. *)
Definition panic {D A} (v : PanicValue) : M D A := fun w => (w, Panic v).

(** [defer deferred] placed before [body]: [deferred] runs when [body] ends,
    also when it ends in a panic; a panic of [deferred] takes over. *)
Definition defer {D A} (deferred : M D unit) (body : M D A) : M D A :=
  fun w =>
    match body w with
    | (w1, r) =>
      match deferred w1 with
      | (w2, Return _) => (w2, r)
      | (w2, Panic v) => (w2, Panic v)
      end
    end.

Definition get_data {D} : M D D := fun w => (w, Return (data w)).

Definition put_data {D} (d : D) : M D unit :=
  fun w => ({| data := d; logged := logged w |}, Return tt).

Definition log {D} (l : Level) (m : string) (a : list LogValue) : M D unit :=
  fun w =>
    ({| data := data w;
        logged := logged w ++ [{| level := l; msg := m; args := a |}] |},
     Return tt).

Definition log_Debug {D} (m : string) (a : list LogValue) : M D unit := log LevelDebug m a.
Definition log_Info {D} (m : string) (a : list LogValue) : M D unit := log LevelInfo m a.
Definition log_Warn {D} (m : string) (a : list LogValue) : M D unit := log LevelWarn m a.
Definition log_Error {D} (m : string) (a : list LogValue) : M D unit := log LevelError m a.

(** How a run ended, and the world it left. *)
Definition outcome {D A} (r : World D * Outcome A) : Outcome A := r.2.
Definition world {D A} (r : World D * Outcome A) : World D := r.1.

End Runtime.

Declare Scope go_scope.
Delimit Scope go_scope with go.
Notation "'let*' x ':=' m 'in' k" := (Runtime.bind m (fun x => k))
  (at level 10, x pattern, m at level 100, k at level 200) : go_scope.
Notation "m ;; k" := (Runtime.bind m (fun _ => k))
  (at level 100, k at level 200, right associativity) : go_scope.

(** ** Package regexp, for patterns without metacharacters *)

Module Regexp.

(** A compiled pattern.  The two patterns the sources compile, [http://] and
    [https://], contain no regexp metacharacter, so each matches exactly its
    own text; [MustCompile] is given that text. *)
Record Regexp := MustCompile { literal : string }.

(** The leftmost match of the literal in [s], searching from byte [i] of the
    whole string: [(start, end)] byte offsets. *)
Fixpoint find_from (lit s : string) (i : nat) : option (nat * nat) :=
  if String.prefix lit s then Some (i, (i + String.length lit)%nat)
  else
    match s with
    | EmptyString => None
    | String _ s' => find_from lit s' (S i)
    end.

(** [re.FindStringIndex(s)]: the location of the leftmost match, or nil. *)
Definition FindStringIndex (re : Regexp) (s : string) : option (nat * nat) :=
  find_from (literal re) s 0.

End Regexp.

(** ** Package path/filepath, with the separator of the Unix targets *)

Module Filepath.

Definition Separator : ascii := "/"%char.

(** [strings.Split(s, sep)] for a one-byte separator. *)
Fixpoint split (sep : ascii) (s : string) : list string :=
  match s with
  | EmptyString => [""]
  | String c s' =>
    if decide (c = sep) then "" :: split sep s'
    else
      match split sep s' with
      | x :: xs => String c x :: xs
      | [] => [String c ""]
      end
  end.

(** [strings.Join(elems, sep)]. *)
Fixpoint join (sep : string) (elems : list string) : string :=
  match elems with
  | [] => ""
  | [x] => x
  | x :: xs => x +:+ sep +:+ join sep xs
  end.

(** One element of a path meets the elements kept so far (innermost first):
    empty and [.] elements go, [..] removes the element before it, is
    dropped at the root, and stays at the front of a relative path. *)
Definition clean_step (rooted : bool) (kept : list string) (elem : string) : list string :=
  if decide (elem = "") then kept
  else if decide (elem = ".") then kept
  else if decide (elem = "..") then
    match kept with
    | top :: below => if decide (top = "..") then elem :: kept else below
    | [] => if rooted then kept else [elem]
    end
  else elem :: kept.

(** [filepath.Clean(path)], by the lexical rules of its documentation. *)
Definition Clean (path : string) : string :=
  let rooted := String.prefix (String Separator "") path in
  let kept := rev (foldl (clean_step rooted) [] (split Separator path)) in
  let body := join (String Separator "") kept in
  if rooted then String Separator body
  else if decide (body = "") then "." else body.

(** [filepath.Join(elem...)]: the elements from the first non-empty one on,
    joined by the separator and cleaned; the empty string if there is none. *)
Fixpoint Join (elem : list string) : string :=
  match elem with
  | [] => ""
  | e :: rest =>
    if decide (e = "") then Join rest
    else Clean (join (String Separator "") elem)
  end.

End Filepath.

(** ** Package database/sql over the sqlite3 driver *)

Module Sql.
Import Go Runtime.
Local Open Scope go_scope.

(** The content of the SQLite file the sources depend on: its tables, each
    name with the column definitions it was created with. *)
Abbreviation Database := (gmap string string).

(** What the sources cannot decide about a call of [database/sql]: the error
    it reports, if any. *)
Record Env := {
  sql_Open_error : string -> string -> option error;
  db_Ping_error : string -> option error;
  db_Prepare_error : string -> option error;
  stmt_Exec_error : string -> option error }.

(** A [*sql.DB] and a [*sql.Stmt]; a nil pointer is [None] of the option. *)
Record DB := { driverName : string; dataSourceName : string }.
Record Stmt := { query : string }.

(** [sql.Open(driver, dsn)] returns [(db, nil)] or [(nil, err)]. *)
Definition Open (env : Env) (driver dsn : string) : option DB * option error :=
  match sql_Open_error env driver dsn with
  | Some e => (None, Some e)
  | None => (Some {| driverName := driver; dataSourceName := dsn |}, None)
  end.

(** [db.Close()].  The methods of [*sql.DB] and [*sql.Stmt] read their
    receiver: called on a nil pointer they end in a runtime panic. *)
Definition DB_Close {D} (db : option DB) : M D unit :=
  match db with
  | None => panic NilPointerDereference
  | Some _ => ret tt
  end.

(** [db.Ping()]. *)
Definition DB_Ping {D} (env : Env) (db : option DB) : M D (option error) :=
  match db with
  | None => panic NilPointerDereference
  | Some h => ret (db_Ping_error env (dataSourceName h))
  end.

(** [db.Prepare(query)] returns [(stmt, nil)] or [(nil, err)].  The error
    is read from the environment by the text of the statement alone. *)
Definition DB_Prepare {D} (env : Env) (db : option DB) (q : string)
  : M D (option Stmt * option error) :=
  match db with
  | None => panic NilPointerDereference
  | Some _ =>
    match db_Prepare_error env q with
    | Some e => ret (None, Some e)
    | None => ret (Some {| query := q |}, None)
    end
  end.

Definition create_table_if_not_exists : string := "CREATE TABLE IF NOT EXISTS ".

(** The text up to the first space, and the text after that space. *)
Fixpoint cut_at_space (s : string) : string * string :=
  match s with
  | EmptyString => ("", "")
  | String c s' =>
    if decide (c = " "%char) then ("", s')
    else let '(name, rest) := cut_at_space s' in (String c name, rest)
  end.

(** SQLite running one statement, for the statements the sources issue:
    [CREATE TABLE IF NOT EXISTS name (columns)] adds the table when no table
    of that name exists and changes nothing when one does.  Names are
    compared as written, and tables are the only objects of a database:
    names that differ in case only, and views, are not represented. *)
Definition sqlite_exec (q : string) (db : Database) : Result Database :=
  if String.prefix create_table_if_not_exists q then
    let '(name, columns) :=
      cut_at_space (slice_from (String.length create_table_if_not_exists) q) in
    match db !! name with
    | Some _ => Ok db
    | None => Ok (<[name := columns]> db)
    end
  else Err "unsupported statement".

(** [stmt.Exec()]: the statement runs on the database unless the call
    fails first. *)
Definition Stmt_Exec (env : Env) (stmt : option Stmt) : M Database (option error) :=
  match stmt with
  | None => panic NilPointerDereference
  | Some st =>
    match stmt_Exec_error env (query st) with
    | Some e => ret (Some e)
    | None =>
      let* db := get_data in
      match sqlite_exec (query st) db with
      | Ok db' => put_data db' ;; ret None
      | Err e => ret (Some e)
      end
    end
  end.

(** [stmt.Close()]. *)
Definition Stmt_Close {D} (stmt : option Stmt) : M D unit :=
  match stmt with
  | None => panic NilPointerDereference
  | Some _ => ret tt
  end.

End Sql.

(** ** Package dbstore *)

Module Dbstore.
Import Go Runtime Backend.
Local Open Scope go_scope.

(** [&http.Client{}]: the zero client. *)
Inductive HttpClient := ZeroHttpClient.

Record InstanceSettings := { httpClient : HttpClient }.

(** [backend.DataSourceInstanceSettings], as far as a factory can tell two
    of them apart. *)
Record DataSourceInstanceSettings := { InstanceID : Z; InstanceName : string }.

(** [instancemgmt.InstanceManager], known by the factory it was made with. *)
Record InstanceManager := NewInstanceManager {
  factory : DataSourceInstanceSettings -> Result InstanceSettings }.

Record SQLiteDatasource := {
  instanceManager : InstanceManager;
  Path : string }.

Record queryModel := { Format : string }.

(** What the sources cannot decide: the errors of [database/sql], the
    process environment, and what [json.Unmarshal] makes of a query's JSON
    (the decoded model and its error). *)
Record Env := {
  sql : Sql.Env;
  os_Getenv : string -> string;
  json_Unmarshal : string -> queryModel -> queryModel * option error }.

Definition getDataSourceInstanceSettings (setting : DataSourceInstanceSettings)
  : Result InstanceSettings :=
  Ok {| httpClient := ZeroHttpClient |}.

Definition query {D} (env : Env) (datasource : SQLiteDatasource) (q : DataQuery)
  : M D DataResponse :=
  let queryModel0 := {| Format := "" |} in
  let response := {| Frames := []; Error := None |} in
  let '(queryModel1, err) := json_Unmarshal env (JSON q) queryModel0 in
  let response := {| Frames := Frames response; Error := err |} in
  let response :=
    {| Frames := Frames response;
       Error := Some (errors_New "Queries are not supported!") |} in
  match Error response with
  | Some _ => ret response
  | None =>
    (if decide (Format queryModel1 = "")
     then log_Warn "format is empty. defaulting to time series" []
     else ret tt) ;;
    let frame := NewFrame "response" in
    let frame :=
      {| FrameName := FrameName frame;
         Fields := Fields frame ++
           [NewField "time"
              (TimeValues [From (TimeRange_ q); To (TimeRange_ q)])] |} in
    let frame :=
      {| FrameName := FrameName frame;
         Fields := Fields frame ++ [NewField "values" (Int64Values [10; 20])] |} in
    ret {| Frames := Frames response ++ [frame]; Error := Error response |}
  end.

(** The loop of [QueryData] over the queries left, on the response built
    so far. *)
Fixpoint query_each {D} (env : Env) (datasource : SQLiteDatasource)
    (queries : list DataQuery) (response : QueryDataResponse)
  : M D QueryDataResponse :=
  match queries with
  | [] => ret response
  | q :: rest =>
    let* res := query env datasource q in
    query_each env datasource rest
      {| Responses := <[RefID q := res]> (Responses response) |}
  end.

Definition QueryData {D} (env : Env) (datasource : SQLiteDatasource)
    (request : QueryDataRequest)
  : M D (QueryDataResponse * option error) :=
  (if decide (os_Getenv env "APP_ENV" = "production") then ret tt
   else log_Info "QueryData" [LogString "request"; LogRequest request]) ;;
  let response := NewQueryDataResponse in
  let* response := query_each env datasource (Queries request) response in
  ret (response, None).

Definition Ping {D} (env : Env) (datasource : SQLiteDatasource) : M D (option error) :=
  log_Info "Pinging Database" [] ;;
  let '(db, err) := Sql.Open (sql env) "sqlite3" (Path datasource) in
  defer (Sql.DB_Close db)
    (match err with
     | Some e =>
       log_Error "Ping - sql.Open: " [LogString e] ;;
       ret (Some e)
     | None =>
       let* err := Sql.DB_Ping (sql env) db in
       match err with
       | Some e =>
         log_Warn "Ping - sql.Ping: " [LogString e] ;;
         ret (Some e)
       | None => ret None
       end
     end).

Definition CheckHealth {D} (env : Env) (datasource : SQLiteDatasource)
    (req : CheckHealthRequest)
  : M D (CheckHealthResult * option error) :=
  let* err := Ping env datasource in
  let '(status, message) :=
    match err with
    | Some e => (HealthStatusError, "Could not ping the database: " +:+ e)
    | None => (HealthStatusOk, "Yeah, nah, All good")
    end in
  ret ({| Status := status; Message := message |}, None).

Definition create_Schedule : string :=
  "CREATE TABLE IF NOT EXISTS Schedule (id TEXT PRIMARY KEY, interval INTEGER, nextReportTime INTEGER, name TEXT, description TEXT, lookback INTEGER, reportGroupID TEXT, time TEXT, day INTEGER, FOREIGN KEY(reportGroupID) REFERENCES ReportGroup(id))".

Definition create_Config : string :=
  "CREATE TABLE IF NOT EXISTS Config (id TEXT PRIMARY KEY, grafanaUsername TEXT, grafanaPassword TEXT, emailPassword TEXT, email TEXT, datasourceID INTEGER, emailHost TEXT, emailPort INTEGER, grafanaURL TEXT)".

Definition create_ReportGroup : string :=
  "CREATE TABLE IF NOT EXISTS ReportGroup (id TEXT PRIMARY KEY, name TEXT, description TEXT)".

Definition create_ReportGroupMembership : string :=
  "CREATE TABLE IF NOT EXISTS ReportGroupMembership (id TEXT PRIMARY KEY, userID TEXT, reportGroupID TEXT, FOREIGN KEY(reportGroupID) REFERENCES ReportGroup(id))".

Definition create_ReportContent : string :=
  "CREATE TABLE IF NOT EXISTS ReportContent (id TEXT PRIMARY KEY, scheduleID TEXT, panelID INTEGER, dashboardID TEXT, lookback INTEGER, variables TEXT, FOREIGN KEY(scheduleID) REFERENCES Schedule(id))".

(** [if err != nil { log.DefaultLogger.Error(msg, err.Error()); panic(err) }]. *)
Definition fatal {D} (m : string) (err : option error) : M D unit :=
  match err with
  | Some e => log_Error m [LogString e] ;; panic (PanicError e)
  | None => ret tt
  end.

Definition Init (env : Env) (datasource : SQLiteDatasource) : M Sql.Database unit :=
  log_Info "Initializing Database" [] ;;
  let* err := Ping env datasource in
  fatal "FATAL. Init - Ping. " err ;;
  let '(db, err) := Sql.Open (sql env) "sqlite3" (Path datasource) in
  defer (Sql.DB_Close db)
    (fatal "FATAL. Init - sql.Open : " err ;;
     let* (stmt, err) := Sql.DB_Prepare (sql env) db create_Schedule in
     Sql.Stmt_Exec (sql env) stmt ;;
     defer (Sql.Stmt_Close stmt)
       (fatal "FATAL. Could not create Schedule:" err ;;
        let* (stmt, err) := Sql.DB_Prepare (sql env) db create_Config in
        Sql.Stmt_Exec (sql env) stmt ;;
        fatal "FATAL. Could not create Config:" err ;;
        let* (stmt, err) := Sql.DB_Prepare (sql env) db create_ReportGroup in
        Sql.Stmt_Exec (sql env) stmt ;;
        fatal "FATAL. Could not create ReportGroup:" err ;;
        let* (stmt, err) := Sql.DB_Prepare (sql env) db create_ReportGroupMembership in
        Sql.Stmt_Exec (sql env) stmt ;;
        fatal "FATAL. Could not create ReportGroupMembership:" err ;;
        let* (stmt, err) := Sql.DB_Prepare (sql env) db create_ReportContent in
        Sql.Stmt_Exec (sql env) stmt ;;
        fatal "FATAL. Could not create ReportContent:" err ;;
        log_Info "Database initialized!" [])).

Definition GetDataSource (env : Env) : M Sql.Database SQLiteDatasource :=
  log_Info "GetDatasource" [] ;;
  let instanceManager := NewInstanceManager getDataSourceInstanceSettings in
  let dataPath := Filepath.Join [".."; "data"; "msupply.db"] in
  let sqlDatasource :=
    {| instanceManager := instanceManager; Path := dataPath |} in
  log_Debug ("mSupply App: DataPath=" +:+ dataPath) [] ;;
  Init env sqlDatasource ;;
  ret sqlDatasource.

(** Modelled from the spec: type [Settings], whose declaration is not among
    the sources.  Its fields are the ones the sources read; they mirror the
    columns grafanaUsername, grafanaPassword, grafanaURL and datasourceID of
    table Config. *)
Record Settings := {
  GrafanaUsername : string;
  GrafanaPassword : string;
  GrafanaURL : string;
  DatasourceID : Z }.

(** Modelled from the spec: type [Schedule], whose declaration is not among
    the sources: the attributes the spec lists for the entity (id, interval,
    nextReportTime, name, description, lookback, reportGroupID, time, day),
    typed as the columns of table Schedule. *)
Record Schedule := {
  sched_id : string;
  sched_interval : Z;
  sched_nextReportTime : Z;
  sched_name : string;
  sched_description : string;
  sched_lookback : Z;
  sched_reportGroupID : string;
  sched_time : string;
  sched_day : Z }.

End Dbstore.

(** ** The rows of table Schedule *)

Module ScheduleStore.
Import Go Dbstore.

(** A value of a column of type TEXT or INTEGER. *)
Inductive SqlValue :=
| TEXT (s : string)
| INTEGER (n : Z).

(** The row of a schedule, in the column order of [create_Schedule]. *)
Definition row_of_schedule (s : Schedule) : list SqlValue :=
  [TEXT (sched_id s); INTEGER (sched_interval s);
   INTEGER (sched_nextReportTime s); TEXT (sched_name s);
   TEXT (sched_description s); INTEGER (sched_lookback s);
   TEXT (sched_reportGroupID s); TEXT (sched_time s); INTEGER (sched_day s)].

(** Scanning a row back into a schedule. *)
Definition schedule_of_row (row : list SqlValue) : option Schedule :=
  match row with
  | [TEXT i; INTEGER iv; INTEGER nx; TEXT nm; TEXT ds; INTEGER lb;
     TEXT rg; TEXT tm; INTEGER dy] =>
    Some {| sched_id := i; sched_interval := iv; sched_nextReportTime := nx;
            sched_name := nm; sched_description := ds; sched_lookback := lb;
            sched_reportGroupID := rg; sched_time := tm; sched_day := dy |}
  | _ => None
  end.

(** Modelled from the spec: writing a Schedule to the store (the repository's
    Schedule accessors are not among the sources).  The rows of table
    Schedule are kept by their primary key id; a write stores the schedule's
    row under the schedule's id. *)
Definition WriteSchedule (s : Schedule) (rows : gmap string (list SqlValue))
  : gmap string (list SqlValue) :=
  <[sched_id s := row_of_schedule s]> rows.

(** Modelled from the spec: reading a Schedule back by its id, the
    [GetSchedule(id)] the test-email handler calls: the row stored under the
    id, scanned; an error when there is no such row. *)
Definition GetSchedule (id : string) (rows : gmap string (list SqlValue))
  : Result Schedule :=
  match rows !! id with
  | Some row =>
    match schedule_of_row row with
    | Some s => Ok s
    | None => Err "sql: Scan error"
    end
  | None => Err "sql: no rows in result set"
  end.

End ScheduleStore.

(** ** Package auth *)

Module Auth.
Import Go Runtime.
Local Open Scope go_scope.

Record AuthConfig := {
  Username : string;
  Password : string;
  URL : string }.

(** [datasource.GetSettings()] is not among the sources: the call is taken
    as an argument. *)
Definition NewAuthConfig {D}
    (GetSettings : Dbstore.SQLiteDatasource -> M D (Result Dbstore.Settings))
    (datasource : Dbstore.SQLiteDatasource)
  : M D (Result AuthConfig) :=
  let* r := GetSettings datasource in
  match r with
  | Err e =>
    log_Error "NewAuthConfig: datasource.GetSettings(): " [LogString e] ;;
    ret (Err e)
  | Ok settings =>
    ret (Ok {| Username := Dbstore.GrafanaUsername settings;
               Password := Dbstore.GrafanaPassword settings;
               URL := Dbstore.GrafanaURL settings |})
  end.

Definition AuthString (config : AuthConfig) : string :=
  Username config +:+ ":" +:+ Password config +:+ "@".

Definition InjectAuthString {D} (config : AuthConfig) : M D string :=
  let http := Regexp.MustCompile "http://" in
  let https := Regexp.MustCompile "https://" in
  let splice (index : nat * nat) : M D string :=
    ret (slice_to index.2 (URL config) +:+ AuthString config
         +:+ slice_from index.2 (URL config)) in
  match Regexp.FindStringIndex http (URL config) with
  | Some index => splice index
  | None =>
    match Regexp.FindStringIndex https (URL config) with
    | Some index => splice index
    | None =>
      log_Info ("Error injecting Auth: " +:+ URL config) [] ;;
      ret ""
    end
  end.

Definition AuthURL {D} (config : AuthConfig) : M D string :=
  InjectAuthString config.

End Auth.

(** ** Package net/http: the response a handler writes *)

Module Http.

Definition StatusOK : Z := 200.
Definition StatusBadRequest : Z := 400.
Definition StatusInternalServerError : Z := 500.

(** What a handler has written: the header map, the status line once it is
    sent, and the body. *)
Record ResponseWriter := {
  header : gmap string string;
  status : option Z;
  body : string }.

Definition new_response : ResponseWriter :=
  {| header := ∅; status := None; body := "" |}.

(** [rw.WriteHeader(code)]: sends the status line; a later call is ignored. *)
Definition WriteHeader (code : Z) (rw : ResponseWriter) : ResponseWriter :=
  match status rw with
  | Some _ => rw
  | None => {| header := header rw; status := Some code; body := body rw |}
  end.

(** [rw.Write(text)]: sends status 200 first if none was sent. *)
Definition Write (text : string) (rw : ResponseWriter) : ResponseWriter :=
  let rw := WriteHeader StatusOK rw in
  {| header := header rw; status := status rw; body := body rw +:+ text |}.

Definition newline : string := String (ascii_of_nat 10) "".

(** [http.Error(rw, text, code)]. *)
Definition Error (text : string) (code : Z) (rw : ResponseWriter) : ResponseWriter :=
  let h := delete "Content-Length" (header rw) in
  let h := <["Content-Type" := "text/plain; charset=utf-8"]> h in
  let h := <["X-Content-Type-Options" := "nosniff"]> h in
  let rw := {| header := h; status := status rw; body := body rw |} in
  let rw := WriteHeader code rw in
  Write (text +:+ newline) rw.

End Http.

(** ** Package server *)

Module Server.
Import Go Runtime Dbstore.
Local Open Scope go_scope.

(** What a handler acts on: the state behind [server.db] and the response
    of the request being served. *)
Record ServerState (S : Type) := { store : S; response : Http.ResponseWriter }.
Arguments store {S} s.
Arguments response {S} s.

Record HttpServer := { db : SQLiteDatasource }.

(** A request, as far as the handler reads it: the route variables
    [mux.Vars(request)]. *)
Record Request := { mux_Vars : gmap string string }.

(** A call that is given [server.db] and nothing of the response.  What
    such a call writes to the log is not represented: the log of a handler
    run holds the lines of the handler and of [NewAuthConfig] only. *)
Definition Call (S A : Type) : Type := S -> S * Outcome A.

(** The functions of packages auth, dbstore, emailer and reportEmailer that
    the handler calls and that are not among the sources. *)
Record Collaborators (S EmailConfig Emailer ReportEmailer : Type) := {
  NewEmailConfig : SQLiteDatasource -> Call S (Result EmailConfig);
  GetSettings : SQLiteDatasource -> Call S (Result Settings);
  GetSchedule : SQLiteDatasource -> string -> Call S (Result Schedule);
  emailer_New : EmailConfig -> Emailer;
  NewReportEmailer : SQLiteDatasource -> ReportEmailer;
  CreateReport :
    ReportEmailer -> Schedule -> Auth.AuthConfig -> Z -> Emailer -> Call S unit }.
Arguments NewEmailConfig {S EmailConfig Emailer ReportEmailer} c.
Arguments GetSettings {S EmailConfig Emailer ReportEmailer} c.
Arguments GetSchedule {S EmailConfig Emailer ReportEmailer} c.
Arguments emailer_New {S EmailConfig Emailer ReportEmailer} c.
Arguments NewReportEmailer {S EmailConfig Emailer ReportEmailer} c.
Arguments CreateReport {S EmailConfig Emailer ReportEmailer} c.

(** Running such a call from a handler. *)
Definition call {S A} (c : Call S A) : M (ServerState S) A :=
  fun w =>
    match c (store (data w)) with
    | (s', r) =>
      ({| data := {| store := s'; response := response (data w) |};
          logged := logged w |}, r)
    end.

(** A write to the response [rw]. *)
Definition on_response {S} (f : Http.ResponseWriter -> Http.ResponseWriter)
  : M (ServerState S) unit :=
  fun w =>
    ({| data := {| store := store (data w); response := f (response (data w)) |};
        logged := logged w |}, Return tt).

Definition http_Error {S} (text : string) (code : Z) : M (ServerState S) unit :=
  on_response (Http.Error text code).

Definition rw_WriteHeader {S} (code : Z) : M (ServerState S) unit :=
  on_response (Http.WriteHeader code).

Definition testEmail {S EmailConfig Emailer ReportEmailer}
    (deps : Collaborators S EmailConfig Emailer ReportEmailer)
    (server : HttpServer) (request : Request)
  : M (ServerState S) unit :=
  let vars := mux_Vars request in
  let id := default "" (vars !! "schedule-id") in
  let* r := call (NewEmailConfig deps (db server)) in
  match r with
  | Err e =>
    log_Error "testEmail: auth.NewEmailConfig: " [LogString e] ;;
    http_Error e Http.StatusInternalServerError ;;
    panic (PanicError e)
  | Ok emailConfig =>
    let* r := Auth.NewAuthConfig (fun d => call (GetSettings deps d)) (db server) in
    match r with
    | Err e =>
      log_Error "textEmail: auth.NewAuthConfig: " [LogString e] ;;
      http_Error e Http.StatusInternalServerError ;;
      panic (PanicError e)
    | Ok authConfig =>
      let* r := call (GetSettings deps (db server)) in
      match r with
      | Err e =>
        log_Error "testEmail: db.GetSettings: " [LogString e] ;;
        http_Error e Http.StatusInternalServerError ;;
        panic (PanicError e)
      | Ok settings =>
        let* r := call (GetSchedule deps (db server) id) in
        match r with
        | Err e =>
          log_Error "testData: server.db.GetSchedule: " [LogString e] ;;
          http_Error e Http.StatusBadRequest ;;
          panic (PanicError e)
        | Ok schedule =>
          let em := emailer_New deps emailConfig in
          let re := NewReportEmailer deps (db server) in
          call (CreateReport deps re schedule authConfig
                  (DatasourceID settings) em) ;;
          rw_WriteHeader Http.StatusOK
        end
      end
    end
  end.

End Server.

(** ** Vocabulary of the statements about strings *)

Module Substring.

(** [lit] occurs in [s]. *)
Definition contains (lit s : string) : Prop :=
  ∃ pre post, s = pre +:+ lit +:+ post.

(** [s] is [pre], then [lit], then [post], and no occurrence of [lit] in
    [s] starts before this one. *)
Definition first_occurrence (lit s pre post : string) : Prop :=
  s = pre +:+ lit +:+ post ∧
  ∀ pre' post', s = pre' +:+ lit +:+ post' →
    (String.length pre <= String.length pre')%nat.

End Substring.

(** ** Vocabulary of the statements about the database *)

Module Schema.
Import Go Runtime Dbstore.

(** The statements [Init] prepares, in its order, and the tables they name. *)
Definition create_statements : list string :=
  [create_Schedule; create_Config; create_ReportGroup;
   create_ReportGroupMembership; create_ReportContent].

Definition table_names : list string :=
  ["Schedule"; "Config"; "ReportGroup"; "ReportGroupMembership"; "ReportContent"].

(** What [stmt.Exec()] of statement [q] leaves of the database: the
    database itself when the call or the statement fails. *)
Definition run_statement (env : Sql.Env) (q : string) (db : Sql.Database)
  : Sql.Database :=
  match Sql.stmt_Exec_error env q with
  | Some _ => db
  | None =>
    match Sql.sqlite_exec q db with
    | Ok db' => db'
    | Err _ => db
    end
  end.

(** The error [stmt.Exec()] of statement [q] returns. *)
Definition exec_error (env : Sql.Env) (q : string) (db : Sql.Database)
  : option error :=
  match Sql.stmt_Exec_error env q with
  | Some e => Some e
  | None =>
    match Sql.sqlite_exec q db with
    | Ok _ => None
    | Err e => Some e
    end
  end.

(** [CREATE TABLE IF NOT EXISTS name columns] on a database. *)
Definition add_table (name columns : string) (db : Sql.Database) : Sql.Database :=
  match db !! name with
  | Some _ => db
  | None => <[name := columns]> db
  end.

(** A database initialization failure: the initial [Ping] returns an error,
    [sql.Open] returns an error, or preparing one of the five statements
    returns an error. *)
Definition init_failure (env : Env) (datasource : SQLiteDatasource)
    (w : World Sql.Database) : Prop :=
  (∃ e, outcome (Ping env datasource w) = Return (Some e)) ∨
  (∃ e, Sql.sql_Open_error (sql env) "sqlite3" (Path datasource) = Some e) ∨
  (∃ q e, q ∈ create_statements ∧ Sql.db_Prepare_error (sql env) q = Some e).

(** No call that [Init] checks reports an error, for the database file at
    [path]. *)
Definition no_failure (env : Env) (path : string) : Prop :=
  Sql.sql_Open_error (sql env) "sqlite3" path = None ∧
  Sql.db_Ping_error (sql env) path = None ∧
  ∀ q, q ∈ create_statements → Sql.db_Prepare_error (sql env) q = None.

(** No [stmt.Exec()] of [Init] is made to fail. *)
Definition no_exec_failure (env : Env) : Prop :=
  ∀ q, q ∈ create_statements → Sql.stmt_Exec_error (sql env) q = None.

(** The world with one more line of log. *)
Definition with_log {D} (w : World D) (l : Level) (m : string) (a : list LogValue)
  : World D :=
  {| data := data w;
     logged := logged w ++ [{| level := l; msg := m; args := a |}] |}.

(** The world with another database. *)
Definition with_data {D} (w : World D) (d : D) : World D :=
  {| data := d; logged := logged w |}.

(** The table a [CREATE TABLE IF NOT EXISTS] statement names, and its
    column definitions. *)
Definition table_of (q : string) : string * string :=
  Sql.cut_at_space
    (slice_from (String.length Sql.create_table_if_not_exists) q).

(** The five statements of [Init] run in order on a database. *)
Definition create_all (db : Sql.Database) : Sql.Database :=
  foldl (fun db q => add_table (table_of q).1 (table_of q).2 db) db create_statements.

End Schema.

(** ** Vocabulary of the statements about the test-email handler *)

Module Handler.
Import Go Runtime Dbstore Server.

(** The world a failed request leaves: the state behind [server.db] as the
    last call left it, the lines logged, and [http.Error(rw, e, code)]
    written to the response. *)
Definition after_error {S} (w : World (ServerState S)) (s : S)
    (lines : list LogEntry) (e : error) (code : Z) : World (ServerState S) :=
  {| data := {| store := s; response := Http.Error e code (response (data w)) |};
     logged := logged w ++ lines |}.

(** The world a served request leaves: [rw.WriteHeader(200)]. *)
Definition after_success {S} (w : World (ServerState S)) (s : S)
  : World (ServerState S) :=
  {| data := {| store := s;
                response := Http.WriteHeader Http.StatusOK (response (data w)) |};
     logged := logged w |}.

Definition error_line (m : string) (e : error) : LogEntry :=
  {| level := LevelError; msg := m; args := [LogString e] |}.

(** The route variable the handler reads. *)
Definition schedule_id (request : Request) : string :=
  default "" (mux_Vars request !! "schedule-id").

(** A store of schedules for the examples: the rows of table Schedule, with
    settings and an email configuration that are always there. *)
Definition example_collaborators
  : Collaborators (gmap string (list ScheduleStore.SqlValue)) string string
      SQLiteDatasource :=
  {| NewEmailConfig := fun _ s => (s, Return (Ok "reports@example.org"));
     GetSettings := fun _ s =>
       (s, Return (Ok {| GrafanaUsername := "admin";
                         GrafanaPassword := "secret";
                         GrafanaURL := "http://localhost:3000";
                         DatasourceID := 1 |}));
     GetSchedule := fun _ id s => (s, Return (ScheduleStore.GetSchedule id s));
     emailer_New := fun config => config;
     NewReportEmailer := fun datasource => datasource;
     CreateReport := fun _ _ _ _ _ s => (s, Return tt) |}.

Definition example_schedule : Schedule :=
  {| sched_id := "weekly-stock"; sched_interval := 604800;
     sched_nextReportTime := 1600000000; sched_name := "Weekly stock";
     sched_description := "Stock on hand, every Monday"; sched_lookback := 7;
     sched_reportGroupID := "managers"; sched_time := "08:00"; sched_day := 1 |}.

Definition example_server : HttpServer :=
  {| db := {| instanceManager := NewInstanceManager getDataSourceInstanceSettings;
              Path := "../data/msupply.db" |} |}.

Definition example_request : Request :=
  {| mux_Vars := {["schedule-id" := "weekly-stock"]} |}.

Definition example_world (rows : gmap string (list ScheduleStore.SqlValue))
  : World (ServerState (gmap string (list ScheduleStore.SqlValue))) :=
  {| data := {| store := rows; response := Http.new_response |}; logged := [] |}.

End Handler.

(** ** Vocabulary of the statements about a run of [Init] *)

Module InitRun.
Import Go Runtime Dbstore Schema.

(** The statements run in order up to the first one whose [Prepare] fails:
    the database they leave, and whether every statement was prepared. *)
Fixpoint run_statements (env : Sql.Env) (stmts : list string)
    (db : Sql.Database) : Sql.Database * bool :=
  match stmts with
  | [] => (db, true)
  | q :: rest =>
    match Sql.db_Prepare_error env q with
    | Some _ => (db, false)
    | None => run_statements env rest (run_statement env q db)
    end
  end.

(** The world when [Init] has logged its start and [Ping] its own. *)
Definition started {D} (w : World D) : World D :=
  with_log (with_log w LevelInfo "Initializing Database" [])
    LevelInfo "Pinging Database" [].

End InitRun.

(* ===================================================================== *)
(** * Part II: properties *)
(* ===================================================================== *)

(** ** Byte strings *)

Section Strings.
Import Go Substring.

Lemma string_app_nil_l (t : string) : "" +:+ t = t.
Proof. reflexivity. Qed.

Lemma string_app_cons (c : ascii) (s t : string) :
  String c s +:+ t = String c (s +:+ t).
Proof. reflexivity. Qed.

Lemma string_app_assoc (s t u : string) : (s +:+ t) +:+ u = s +:+ t +:+ u.
Proof.
  induction s as [|c s IH]; [reflexivity|].
  rewrite !string_app_cons. by rewrite IH.
Qed.

Lemma prefix_nil (s : string) : String.prefix "" s = true.
Proof. by destruct s. Qed.

Lemma prefix_true_iff (lit s : string) :
  String.prefix lit s = true ↔ ∃ post, s = lit +:+ post.
Proof.
  revert s. induction lit as [|c lit IH]; intros s.
  - rewrite prefix_nil. split; [|done]. intros _. by exists s.
  - destruct s as [|d s]; simpl.
    + split; [done|]. by intros [post Hpost].
    + destruct (Ascii.ascii_dec c d) as [->|Hne].
      * rewrite IH. split; intros [post Hpost]; exists post.
        -- rewrite string_app_cons. by f_equal.
        -- rewrite string_app_cons in Hpost. by simplify_eq.
      * split; [done|]. intros [post Hpost].
        rewrite string_app_cons in Hpost. by simplify_eq.
Qed.

Lemma slice_to_app (pre rest : string) :
  slice_to (String.length pre) (pre +:+ rest) = pre.
Proof.
  induction pre as [|c pre IH]; simpl; [reflexivity|]. by f_equal.
Qed.

Lemma slice_from_app (pre rest : string) :
  slice_from (String.length pre) (pre +:+ rest) = rest.
Proof.
  induction pre as [|c pre IH]; simpl; [reflexivity|]. done.
Qed.

Lemma string_length_app (s t : string) :
  String.length (s +:+ t) = (String.length s + String.length t)%nat.
Proof.
  induction s as [|c s IH]; [done|]. rewrite string_app_cons. simpl. by rewrite IH.
Qed.

(** An occurrence in [String c s] starts at the first byte or is an
    occurrence in [s]. *)
Lemma occurrence_cons (lit s pre post : string) (c : ascii) :
  String c s = pre +:+ lit +:+ post →
  (pre = "" ∧ String.prefix lit (String c s) = true) ∨
  (∃ pre', pre = String c pre' ∧ s = pre' +:+ lit +:+ post).
Proof.
  intros Hs. destruct pre as [|d pre].
  - left. split; [done|]. apply prefix_true_iff. by exists post.
  - right. rewrite string_app_cons in Hs. simplify_eq. by exists pre.
Qed.

Lemma find_from_unfold (lit s : string) (i : nat) :
  Regexp.find_from lit s i =
  if String.prefix lit s then Some (i, (i + String.length lit)%nat)
  else
    match s with
    | EmptyString => None
    | String _ s' => Regexp.find_from lit s' (S i)
    end.
Proof. by destruct s. Qed.

Lemma find_from_spec (lit s : string) (i : nat) :
  match Regexp.find_from lit s i with
  | Some (a, b) =>
    ∃ pre post, first_occurrence lit s pre post ∧
      a = (i + String.length pre)%nat ∧ b = (a + String.length lit)%nat
  | None => ¬ contains lit s
  end.
Proof.
  revert i. induction s as [|c s IH]; intros i; rewrite find_from_unfold.
  - destruct (String.prefix lit "") eqn:Hp.
    + apply prefix_true_iff in Hp as [post Hpost].
      exists "", post. split; [split|simpl; lia]; [done|].
      intros; simpl; lia.
    + intros (pre & post & Hs). destruct pre; [|done].
      assert (String.prefix lit "" = true) as Hp'; [|congruence].
      apply prefix_true_iff. by exists post.
  - destruct (String.prefix lit (String c s)) eqn:Hp.
    + apply prefix_true_iff in Hp as [post Hpost].
      exists "", post. split; [split|simpl; lia]; [done|].
      intros; simpl; lia.
    + specialize (IH (S i)). destruct (Regexp.find_from lit s (S i)) as [[a b]|].
      * destruct IH as (pre & post & [Hs Hmin] & -> & ->).
        exists (String c pre), post. split; [split|simpl; lia].
        { rewrite string_app_cons. by f_equal. }
        intros pre' post' Hocc.
        apply occurrence_cons in Hocc as [[_ ?]|(pre'' & -> & Hocc)]; [congruence|].
        simpl. apply Hmin in Hocc. lia.
      * intros (pre & post & Hocc).
        apply occurrence_cons in Hocc as [[_ ?]|(pre'' & -> & Hocc)]; [congruence|].
        apply IH. by exists pre'', post.
Qed.

Lemma FindStringIndex_spec (lit s : string) :
  match Regexp.FindStringIndex (Regexp.MustCompile lit) s with
  | Some (a, b) =>
    ∃ pre post, first_occurrence lit s pre post ∧
      a = String.length pre ∧ b = String.length (pre +:+ lit)
  | None => ¬ contains lit s
  end.
Proof.
  unfold Regexp.FindStringIndex. simpl.
  pose proof (find_from_spec lit s 0) as H.
  destruct (Regexp.find_from lit s 0) as [[a b]|]; [|done].
  destruct H as (pre & post & Hfirst & -> & ->).
  exists pre, post. by rewrite string_length_app.
Qed.

(** Searching decides occurrence. *)
Lemma find_from_None (lit s : string) :
  Regexp.find_from lit s 0 = None → ¬ contains lit s.
Proof.
  intros Hnone. pose proof (find_from_spec lit s 0) as H.
  by rewrite Hnone in H.
Qed.

End Strings.

(** ** Package auth: injecting the credentials into the URL *)

Section AuthProperties.
Import Go Runtime Substring Auth.
Context {D : Type}.

(** The splice at a match that ends at byte [length (pre +:+ lit)]. *)
Lemma splice_at (config : AuthConfig) (lit pre post : string) :
  URL config = pre +:+ lit +:+ post →
  slice_to (String.length (pre +:+ lit)) (URL config) +:+ AuthString config
    +:+ slice_from (String.length (pre +:+ lit)) (URL config)
  = pre +:+ lit +:+ Username config +:+ ":" +:+ Password config +:+ "@" +:+ post.
Proof.
  intros ->. rewrite <- (string_app_assoc pre lit post).
  rewrite slice_to_app, slice_from_app. unfold AuthString.
  by rewrite !string_app_assoc.
Qed.

(** C1.  When the URL contains [http://], the result is the URL with
    [Username:Password@] spliced in right after the first [http://]; when it
    does not but contains [https://], the same right after the first
    [https://].  [http://] is looked for first, wherever [https://] stands;
    the text before and after the scheme is unchanged, and nothing is
    logged. *)
Theorem InjectAuthString_splices (config : AuthConfig) (w : World D) :
  (contains "http://" (URL config) →
   ∃ pre post, first_occurrence "http://" (URL config) pre post ∧
     InjectAuthString config w =
     (w, Return (pre +:+ "http://" +:+ Username config +:+ ":"
                 +:+ Password config +:+ "@" +:+ post))) ∧
  (¬ contains "http://" (URL config) → contains "https://" (URL config) →
   ∃ pre post, first_occurrence "https://" (URL config) pre post ∧
     InjectAuthString config w =
     (w, Return (pre +:+ "https://" +:+ Username config +:+ ":"
                 +:+ Password config +:+ "@" +:+ post))).
Proof.
  unfold InjectAuthString.
  pose proof (FindStringIndex_spec "http://" (URL config)) as Hhttp.
  pose proof (FindStringIndex_spec "https://" (URL config)) as Hhttps.
  destruct (Regexp.FindStringIndex (Regexp.MustCompile "http://") (URL config))
    as [[a b]|].
  - destruct Hhttp as (pre & post & Hfirst & -> & ->). split.
    2:{ intros Hnot. destruct Hnot. exists pre, post. apply Hfirst. }
    intros _. exists pre, post. split; [done|].
    unfold ret; cbn [snd]. by rewrite (splice_at _ _ _ _ (proj1 Hfirst)).
  - split; [tauto|]. intros _ Hin.
    destruct (Regexp.FindStringIndex (Regexp.MustCompile "https://") (URL config))
      as [[a b]|]; [|tauto].
    destruct Hhttps as (pre & post & Hfirst & -> & ->).
    exists pre, post. split; [done|].
    unfold ret; cbn [snd]. by rewrite (splice_at _ _ _ _ (proj1 Hfirst)).
Qed.

(** C2.  When the URL contains neither [http://] nor [https://], the call
    returns the empty string: it does not panic, and its only trace is one
    line of log. *)
Theorem InjectAuthString_without_scheme (config : AuthConfig) (w : World D) :
  ¬ contains "http://" (URL config) →
  ¬ contains "https://" (URL config) →
  InjectAuthString config w =
  ({| data := data w;
      logged := logged w ++
        [{| level := LevelInfo;
            msg := "Error injecting Auth: " +:+ URL config;
            args := [] |}] |},
   Return "").
Proof.
  intros Hhttp Hhttps. unfold InjectAuthString.
  pose proof (FindStringIndex_spec "http://" (URL config)) as H1.
  pose proof (FindStringIndex_spec "https://" (URL config)) as H2.
  destruct (Regexp.FindStringIndex (Regexp.MustCompile "http://") (URL config))
    as [[a b]|].
  { destruct H1 as (pre & post & [Heq _] & _). destruct Hhttp. by exists pre, post. }
  destruct (Regexp.FindStringIndex (Regexp.MustCompile "https://") (URL config))
    as [[a b]|].
  { destruct H2 as (pre & post & [Heq _] & _). destruct Hhttps. by exists pre, post. }
  reflexivity.
Qed.

End AuthProperties.

(** [http://] wins over an [https://] that stands before it. *)
Lemma InjectAuthString_splices_witness :
  let config :=
    {| Auth.Username := "admin"; Auth.Password := "secret";
       Auth.URL := "https://grafana.local/?redirect=http://inner/" |} in
  let w := {| Runtime.data := tt; Runtime.logged := [] |} in
  Substring.contains "http://" (Auth.URL config) ∧
  ∃ pre post,
    Substring.first_occurrence "http://" (Auth.URL config) pre post ∧
    Auth.InjectAuthString config w =
    (w, Go.Return (pre +:+ "http://" +:+ "admin" +:+ ":" +:+ "secret" +:+ "@" +:+ post)).
Proof.
  intros config w.
  assert (Substring.contains "http://" (Auth.URL config)) as Hin.
  { by exists "https://grafana.local/?redirect=", "inner/". }
  split; [exact Hin|].
  exact (proj1 (InjectAuthString_splices config w) Hin).
Defined.

Lemma InjectAuthString_without_scheme_witness :
  let config :=
    {| Auth.Username := "admin"; Auth.Password := "secret";
       Auth.URL := "grafana.local:3000/http:/" |} in
  Auth.InjectAuthString config {| Runtime.data := tt; Runtime.logged := [] |} =
  ({| Runtime.data := tt;
      Runtime.logged :=
        [{| Runtime.level := Runtime.LevelInfo;
            Runtime.msg := "Error injecting Auth: grafana.local:3000/http:/";
            Runtime.args := [] |}] |},
   Go.Return "").
Proof.
  intros config.
  apply (InjectAuthString_without_scheme config
           {| Runtime.data := tt; Runtime.logged := [] |});
    apply find_from_None; reflexivity.
Defined.

(** ** The state-and-panic monad *)

Section MonadLaws.
Import Go Runtime Schema.
Context {D : Type}.

Lemma bind_ret {A B} (a : A) (k : A → M D B) (w : World D) :
  bind (ret a) k w = k a w.
Proof. reflexivity. Qed.

Lemma bind_log {B} l m a (k : unit → M D B) (w : World D) :
  bind (log l m a) k w = k tt (with_log w l m a).
Proof. reflexivity. Qed.

Lemma bind_bind {A B C} (m : M D A) (k : A → M D B) (k' : B → M D C) (w : World D) :
  bind (bind m k) k' w = bind m (fun a => bind (k a) k') w.
Proof. unfold bind. by destruct (m w) as [w' [a|v]]. Qed.

(** A deferred call that returns leaves the body's result as it is. *)
Lemma defer_returns {A} (deferred : M D unit) (body : M D A) (w : World D) :
  (∀ w', deferred w' = (w', Return tt)) →
  defer deferred body w = body w.
Proof. intros Hd. unfold defer. destruct (body w) as [w1 r]. by rewrite Hd. Qed.

End MonadLaws.

(** ** Package dbstore: health check and queries *)

Section DbstoreProperties.
Import Go Runtime Backend Dbstore Schema.
Context {D : Type}.

(** What [Ping] does, by what [sql.Open] and [db.Ping] report.  When
    [sql.Open] fails, [db] is nil and the deferred [db.Close()] panics. *)
Lemma Ping_unfold (env : Env) (datasource : SQLiteDatasource) (w : World D) :
  Ping env datasource w =
  let w1 := with_log w LevelInfo "Pinging Database" [] in
  match Sql.sql_Open_error (sql env) "sqlite3" (Path datasource) with
  | Some e =>
    (with_log w1 LevelError "Ping - sql.Open: " [LogString e],
     Panic NilPointerDereference)
  | None =>
    match Sql.db_Ping_error (sql env) (Path datasource) with
    | Some e =>
      (with_log w1 LevelWarn "Ping - sql.Ping: " [LogString e], Return (Some e))
    | None => (w1, Return None)
    end
  end.
Proof.
  unfold Ping, Sql.Open, log_Info, log_Warn, log_Error. rewrite bind_log.
  destruct (Sql.sql_Open_error _ _ _) as [e|]; [reflexivity|].
  unfold defer, Sql.DB_Ping, bind, ret; simpl.
  destruct (Sql.db_Ping_error _ _) as [e|]; reflexivity.
Qed.

(** C10.  [CheckHealth] never returns a non-nil error.  When [Ping] returns
    an error the result has status [HealthStatusError] and the message
    [Could not ping the database: ] followed by the error's text; when
    [Ping] returns nil the result has status [HealthStatusOk] and the
    message [Yeah, nah, All good].  It returns, with a nil error, whenever
    [sql.Open] succeeds. *)
Theorem CheckHealth_reports_Ping (env : Env) (datasource : SQLiteDatasource)
    (req : CheckHealthRequest) (w : World D) :
  (∀ w' res err,
     CheckHealth env datasource req w = (w', Return (res, err)) → err = None) ∧
  (∀ w' e,
     Ping env datasource w = (w', Return (Some e)) →
     CheckHealth env datasource req w =
     (w', Return ({| Status := HealthStatusError;
                     Message := "Could not ping the database: " +:+ e |}, None))) ∧
  (∀ w',
     Ping env datasource w = (w', Return None) →
     CheckHealth env datasource req w =
     (w', Return ({| Status := HealthStatusOk;
                     Message := "Yeah, nah, All good" |}, None))) ∧
  (Sql.sql_Open_error (sql env) "sqlite3" (Path datasource) = None →
   ∃ w' res, CheckHealth env datasource req w = (w', Return (res, None))).
Proof.
  split_and!.
  - unfold CheckHealth, bind, ret.
    destruct (Ping env datasource w) as [w1 [[e|]|v]]; intros; by simplify_eq.
  - intros w' e Hping. unfold CheckHealth, bind. by rewrite Hping.
  - intros w' Hping. unfold CheckHealth, bind. by rewrite Hping.
  - intros Hopen. unfold CheckHealth, bind. rewrite Ping_unfold, Hopen. cbv zeta.
    destruct (Sql.db_Ping_error _ _); eauto.
Qed.

(** Every query is answered with the error [Queries are not supported!] and
    no frame, whatever its JSON decodes to; nothing is logged. *)
Lemma query_not_supported (env : Env) (datasource : SQLiteDatasource)
    (q : DataQuery) (w : World D) :
  query env datasource q w =
  (w, Return {| Frames := []; Error := Some "Queries are not supported!" |}).
Proof.
  unfold query. by destruct (json_Unmarshal env (JSON q) _) as [m err].
Qed.

Lemma query_each_unfold (env : Env) (datasource : SQLiteDatasource)
    (queries : list DataQuery) (response : QueryDataResponse) (w : World D) :
  query_each env datasource queries response w =
  (w, Return {| Responses :=
       foldl (fun m q =>
                <[RefID q :=
                    {| Frames := [];
                       Error := Some "Queries are not supported!" |}]> m)
             (Responses response) queries |}).
Proof.
  revert response. induction queries as [|q queries IH]; intros response; simpl.
  - by destruct response.
  - unfold bind. rewrite query_not_supported. by rewrite IH.
Qed.

Lemma responses_lookup_query (res : DataResponse) (queries : list DataQuery)
    (m : gmap string DataResponse) (q : DataQuery) :
  q ∈ queries →
  foldl (fun m q => <[RefID q := res]> m) m queries !! RefID q = Some res.
Proof.
  revert m. induction queries as [|q' queries IH] using rev_ind; intros m Hq.
  - by apply elem_of_nil in Hq.
  - rewrite foldl_snoc.
    destruct (decide (RefID q' = RefID q)) as [->|Hne].
    + apply lookup_insert_eq.
    + rewrite lookup_insert_ne by done. apply IH.
      apply elem_of_app in Hq as [Hq|Hq]; [done|].
      apply list_elem_of_singleton in Hq. by subst.
Qed.

Lemma responses_lookup_inv (res : DataResponse) (queries : list DataQuery)
    (m : gmap string DataResponse) (refID : string) (r : DataResponse) :
  foldl (fun m q => <[RefID q := res]> m) m queries !! refID = Some r →
  (r = res ∧ ∃ q, q ∈ queries ∧ RefID q = refID) ∨ m !! refID = Some r.
Proof.
  revert m. induction queries as [|q queries IH]; intros m; simpl; [by right|].
  intros Hr. apply IH in Hr as [[-> (q' & Hq' & Hid)]|Hr].
  - left. split; [done|]. exists q'. split; [by right|done].
  - destruct (decide (RefID q = refID)) as [Heq|Hne].
    + rewrite <- Heq, lookup_insert_eq in Hr. simplify_eq.
      left. split; [done|]. exists q. split; [by left|done].
    + rewrite lookup_insert_ne in Hr by done. by right.
Qed.

(** C9.  [QueryData] returns a nil error, and its response maps the RefID
    of every query of the request to a response with the error [Queries are
    not supported!] and no frame, and holds no other entry; the code of
    [query] that builds a frame is never reached. *)
Theorem QueryData_not_supported (env : Env) (datasource : SQLiteDatasource)
    (request : QueryDataRequest) (w : World D) :
  let unsupported :=
    {| Frames := []; Error := Some "Queries are not supported!" |} in
  (∀ q (w' : World D), query env datasource q w' = (w', Return unsupported)) ∧
  ∃ w' response,
    QueryData env datasource request w = (w', Return (response, None)) ∧
    (∀ q, q ∈ Queries request →
       Responses response !! RefID q = Some unsupported) ∧
    (∀ refID res, Responses response !! refID = Some res →
       res = unsupported ∧ ∃ q, q ∈ Queries request ∧ RefID q = refID).
Proof.
  intros unsupported. split; [intros; apply query_not_supported|].
  unfold QueryData.
  set (w1 := if decide (os_Getenv env "APP_ENV" = "production") then w
             else with_log w LevelInfo "QueryData"
                    [LogString "request"; LogRequest request]).
  exists w1. eexists. split_and!.
  - unfold log_Info. subst w1.
    destruct (decide (os_Getenv env "APP_ENV" = "production"));
      [rewrite bind_ret|rewrite bind_log];
      unfold bind; by rewrite query_each_unfold.
  - intros q Hq. simpl. by apply responses_lookup_query.
  - intros refID res Hres. simpl in Hres.
    apply responses_lookup_inv in Hres as [?|Hres]; [done|].
    by rewrite lookup_empty in Hres.
Qed.

End DbstoreProperties.

Lemma CheckHealth_reports_Ping_witness :
  let env :=
    {| Dbstore.sql :=
         {| Sql.sql_Open_error := fun _ _ => None;
            Sql.db_Ping_error := fun _ => Some "unable to open database file";
            Sql.db_Prepare_error := fun _ => None;
            Sql.stmt_Exec_error := fun _ => None |};
       Dbstore.os_Getenv := fun _ => "";
       Dbstore.json_Unmarshal := fun _ m => (m, None) |} in
  let datasource :=
    {| Dbstore.instanceManager :=
         Dbstore.NewInstanceManager Dbstore.getDataSourceInstanceSettings;
       Dbstore.Path := "../data/msupply.db" |} in
  let req := {| Backend.PluginID := "msupply" |} in
  let w := {| Runtime.data := tt; Runtime.logged := [] |} in
  let w' :=
    Schema.with_log (Schema.with_log w Runtime.LevelInfo "Pinging Database" [])
      Runtime.LevelWarn "Ping - sql.Ping: "
      [Runtime.LogString "unable to open database file"] in
  Dbstore.Ping env datasource w =
    (w', Go.Return (Some "unable to open database file")) ∧
  Dbstore.CheckHealth env datasource req w =
    (w', Go.Return
           ({| Backend.Status := Backend.HealthStatusError;
               Backend.Message :=
                 "Could not ping the database: unable to open database file" |},
            None)).
Proof.
  intros env datasource req w w'.
  assert (Dbstore.Ping env datasource w =
          (w', Go.Return (Some "unable to open database file"))) as Hping
    by reflexivity.
  split; [exact Hping|].
  exact (proj1 (proj2 (CheckHealth_reports_Ping env datasource req w)) _ _ Hping).
Defined.

(** ** Package dbstore: initialization *)

Section InitProperties.
Import Go Runtime Backend Dbstore Schema.

Lemma world_eta {D} (w : World D) : {| data := data w; logged := logged w |} = w.
Proof. by destruct w. Qed.

(** [stmt.Exec()] on a prepared statement, followed by the rest. *)
Lemma Stmt_Exec_step {B} (env : Sql.Env) (q : string)
    (k : option error → M Sql.Database B) (w : World Sql.Database) :
  bind (Sql.Stmt_Exec env (Some {| Sql.query := q |})) k w =
  k (exec_error env q (data w)) (with_data w (run_statement env q (data w))).
Proof.
  unfold Sql.Stmt_Exec, exec_error, run_statement, with_data.
  unfold bind, get_data, put_data, ret. simpl.
  destruct (Sql.stmt_Exec_error env q); [by rewrite world_eta|].
  destruct (Sql.sqlite_exec q (data w)); simpl; [done|by rewrite world_eta].
Qed.

(** [db.Prepare(q)] on an open database, followed by the rest. *)
Lemma DB_Prepare_step {D B} (env : Sql.Env) (h : Sql.DB) (q : string)
    (k : option Sql.Stmt * option error → M D B) (w : World D) :
  bind (Sql.DB_Prepare env (Some h) q) k w =
  match Sql.db_Prepare_error env q with
  | Some e => k (None, Some e) w
  | None => k (Some {| Sql.query := q |}, None) w
  end.
Proof. unfold Sql.DB_Prepare. by destruct (Sql.db_Prepare_error env q). Qed.

Lemma fatal_None_step {D B} (m : string) (k : unit → M D B) (w : World D) :
  bind (fatal m None) k w = k tt w.
Proof. reflexivity. Qed.

Lemma Stmt_Close_returns {D} (st : Sql.Stmt) (w : World D) :
  Sql.Stmt_Close (Some st) w = (w, Return tt).
Proof. reflexivity. Qed.

(** One statement of [Init] whose [Prepare] succeeds: rewrite the goal to
    the run of the rest, after the statement ran. *)
Ltac prepared H :=
  rewrite DB_Prepare_step, H, Stmt_Exec_step, ?fatal_None_step;
  rewrite ?(defer_returns (Sql.Stmt_Close (Some _)))
    by (intros; apply Stmt_Close_returns);
  rewrite ?fatal_None_step.

(** One statement of [Init]: either its [Prepare] fails and the run panics
    at [stmt.Exec()] on the nil statement, or the run goes on. *)
Ltac prepare_or_panic :=
  rewrite DB_Prepare_step;
  match goal with
  | |- context [Sql.db_Prepare_error ?env ?q] =>
    let H := fresh "Hprep" in
    destruct (Sql.db_Prepare_error env q) as [?|] eqn:H;
    [by (eexists; reflexivity)|];
    rewrite Stmt_Exec_step, ?fatal_None_step;
    rewrite ?(defer_returns (Sql.Stmt_Close (Some _)))
      by (intros; apply Stmt_Close_returns);
    rewrite ?fatal_None_step
  end.

Lemma in_create_statements (q : string) :
  q ∈ create_statements →
  q = create_Schedule ∨ q = create_Config ∨ q = create_ReportGroup ∨
  q = create_ReportGroupMembership ∨ q = create_ReportContent.
Proof.
  unfold create_statements. intros Hq.
  repeat (apply elem_of_cons in Hq as [->|Hq]; [tauto|]).
  by apply elem_of_nil in Hq.
Qed.

Lemma create_statements_elem :
  create_Schedule ∈ create_statements ∧ create_Config ∈ create_statements ∧
  create_ReportGroup ∈ create_statements ∧
  create_ReportGroupMembership ∈ create_statements ∧
  create_ReportContent ∈ create_statements.
Proof. unfold create_statements. split_and!; apply list_elem_of_In; simpl; tauto. Qed.

(** When no checked call fails, [Init] returns, whatever [stmt.Exec()]
    reports: the database is the one left by the five statements run in
    order, and three lines are logged. *)
Lemma Init_returns (env : Env) (datasource : SQLiteDatasource)
    (w : World Sql.Database) :
  no_failure env (Path datasource) →
  Init env datasource w =
  (with_log
     (with_data
        (with_log (with_log w LevelInfo "Initializing Database" [])
           LevelInfo "Pinging Database" [])
        (foldl (fun db q => run_statement (sql env) q db) (data w)
           create_statements))
     LevelInfo "Database initialized!" [],
   Return tt).
Proof.
  intros (Hopen & Hping & Hprep).
  destruct create_statements_elem as (H1 & H2 & H3 & H4 & H5).
  apply Hprep in H1, H2, H3, H4, H5.
  unfold Init, log_Info. rewrite bind_log. unfold bind at 1.
  rewrite Ping_unfold. cbv zeta. rewrite Hopen, Hping, fatal_None_step.
  unfold Sql.Open. rewrite Hopen.
  rewrite defer_returns by done. rewrite fatal_None_step.
  prepared H1. prepared H2. prepared H3. prepared H4. prepared H5.
  reflexivity.
Qed.

(** C4.  When the initial [Ping] returns an error, [sql.Open] returns an
    error, or preparing one of the five [CREATE TABLE] statements returns an
    error, [Init] panics: it does not return normally after such a
    failure.  (The result of [stmt.Exec()] is not among the calls [Init]
    checks; see [Init_returns].) *)
Theorem Init_panics_on_failure (env : Env) (datasource : SQLiteDatasource)
    (w : World Sql.Database) :
  init_failure env datasource w →
  (∃ v, outcome (Init env datasource w) = Panic v) ∧
  outcome (Init env datasource w) ≠ Return tt.
Proof.
  intros Hfail.
  assert (∃ v, outcome (Init env datasource w) = Panic v) as [v Hv];
    [|split; [by exists v|by rewrite Hv]].
  unfold Init, log_Info. rewrite bind_log. unfold bind at 1.
  rewrite Ping_unfold. cbv zeta.
  destruct (Sql.sql_Open_error _ _ _) as [e|] eqn:Hopen;
    [by (eexists; reflexivity)|].
  destruct (Sql.db_Ping_error _ _) as [e|] eqn:Hping;
    [by (eexists; reflexivity)|].
  rewrite fatal_None_step. unfold Sql.Open. rewrite Hopen.
  rewrite defer_returns by done. rewrite fatal_None_step.
  do 5 prepare_or_panic.
  destruct Hfail as [[e He]|[[e He]|(q & e & Hq & He)]].
  - rewrite Ping_unfold, Hopen, Hping in He. discriminate He.
  - congruence.
  - apply in_create_statements in Hq. destruct_or!; congruence.
Qed.

(** *** The schema the statements leave *)

Lemma create_statements_prefix (q : string) :
  q ∈ create_statements →
  String.prefix Sql.create_table_if_not_exists q = true.
Proof.
  intros Hq. apply in_create_statements in Hq. by destruct_or!; subst q.
Qed.

Lemma create_statements_tables :
  (fun q => (table_of q).1) <$> create_statements = table_names.
Proof. reflexivity. Qed.

Lemma sqlite_exec_create (q : string) (db : Sql.Database) :
  String.prefix Sql.create_table_if_not_exists q = true →
  Sql.sqlite_exec q db = Ok (add_table (table_of q).1 (table_of q).2 db).
Proof.
  unfold Sql.sqlite_exec, add_table, table_of. intros ->.
  destruct (Sql.cut_at_space _) as [name columns]; simpl.
  by destruct (db !! name).
Qed.

Lemma dom_add_table (name columns : string) (db : Sql.Database) :
  dom (add_table name columns db) = dom db ∪ {[name]}.
Proof.
  unfold add_table. destruct (db !! name) eqn:Hname.
  - apply elem_of_dom_2 in Hname. apply set_eq. intros x.
    rewrite elem_of_union, elem_of_singleton. intuition congruence.
  - rewrite dom_insert_L. apply union_comm_L.
Qed.

Lemma add_table_subseteq (name columns : string) (db : Sql.Database) :
  db ⊆ add_table name columns db.
Proof.
  unfold add_table. destruct (db !! name) eqn:Hname; [done|].
  by apply insert_subseteq.
Qed.

Lemma add_table_present (name columns : string) (db : Sql.Database) :
  name ∈ dom db → add_table name columns db = db.
Proof.
  intros [v Hv]%elem_of_dom. unfold add_table. by rewrite Hv.
Qed.

(** A statement whose table exists changes nothing, whether [stmt.Exec()]
    fails or not. *)
Lemma run_statement_present (env : Sql.Env) (q : string) (db : Sql.Database) :
  String.prefix Sql.create_table_if_not_exists q = true →
  (table_of q).1 ∈ dom db →
  run_statement env q db = db.
Proof.
  intros Hq Hin. unfold run_statement.
  destruct (Sql.stmt_Exec_error env q); [done|].
  rewrite sqlite_exec_create by done. by apply add_table_present.
Qed.

Lemma run_statement_create (env : Sql.Env) (q : string) (db : Sql.Database) :
  String.prefix Sql.create_table_if_not_exists q = true →
  Sql.stmt_Exec_error env q = None →
  run_statement env q db = add_table (table_of q).1 (table_of q).2 db.
Proof.
  intros Hq Hexec. unfold run_statement. rewrite Hexec.
  by rewrite sqlite_exec_create.
Qed.

Section Statements.
Variable stmts : list string.

Lemma foldl_run_statement_create (env : Sql.Env) (db : Sql.Database) :
  (∀ q, q ∈ stmts →
     String.prefix Sql.create_table_if_not_exists q = true ∧
     Sql.stmt_Exec_error env q = None) →
  foldl (fun db q => run_statement env q db) db stmts =
  foldl (fun db q => add_table (table_of q).1 (table_of q).2 db) db stmts.
Proof.
  revert db. induction stmts as [|q rest IH]; intros db Hall; [done|]. simpl.
  destruct (Hall q) as [Hq Hexec]; [by left|].
  rewrite run_statement_create by done.
  apply IH. intros q' Hq'. apply Hall. by right.
Qed.

Lemma foldl_run_statement_present (env : Sql.Env) (db : Sql.Database) :
  (∀ q, q ∈ stmts →
     String.prefix Sql.create_table_if_not_exists q = true ∧
     (table_of q).1 ∈ dom db) →
  foldl (fun db q => run_statement env q db) db stmts = db.
Proof.
  induction stmts as [|q rest IH]; intros Hall; [done|]. simpl.
  destruct (Hall q) as [Hq Hin]; [by left|].
  rewrite run_statement_present by done.
  apply IH. intros q' Hq'. apply Hall. by right.
Qed.

Lemma dom_foldl_add_table (db : Sql.Database) :
  dom (foldl (fun db q => add_table (table_of q).1 (table_of q).2 db) db stmts)
  = dom db ∪ list_to_set ((fun q => (table_of q).1) <$> stmts).
Proof.
  revert db. induction stmts as [|q rest IH]; intros db; simpl.
  - by rewrite union_empty_r_L.
  - rewrite IH, dom_add_table. symmetry. apply (assoc_L (∪)).
Qed.

Lemma foldl_add_table_subseteq (db : Sql.Database) :
  db ⊆ foldl (fun db q => add_table (table_of q).1 (table_of q).2 db) db stmts.
Proof.
  revert db. induction stmts as [|q rest IH]; intros db; simpl; [done|].
  etrans; [apply add_table_subseteq|apply IH].
Qed.

End Statements.

Lemma dom_create_all (db : Sql.Database) :
  dom (create_all db) = dom db ∪ list_to_set table_names.
Proof.
  unfold create_all. by rewrite dom_foldl_add_table, create_statements_tables.
Qed.

(** The run in which nothing fails, [stmt.Exec()] included: [Init] returns
    and leaves the database with the five tables Schedule, Config,
    ReportGroup, ReportGroupMembership and ReportContent beside the tables
    it had, which are kept as they were; each statement is a [CREATE TABLE
    IF NOT EXISTS].  Running [Init] again on the database it left, with no
    checked call failing, leaves the schema as it is. *)
Theorem Init_creates_five_tables_idempotently (env env' : Env)
    (datasource : SQLiteDatasource) (w : World Sql.Database) :
  no_failure env (Path datasource) →
  no_exec_failure env →
  no_failure env' (Path datasource) →
  (∀ q, q ∈ create_statements →
     String.prefix "CREATE TABLE IF NOT EXISTS " q = true) ∧
  (fun q => (table_of q).1) <$> create_statements = table_names ∧
  ∃ w1 w2,
    Init env datasource w = (w1, Return tt) ∧
    data w1 = create_all (data w) ∧
    dom (data w1) = dom (data w) ∪ list_to_set table_names ∧
    data w ⊆ data w1 ∧
    Init env' datasource w1 = (w2, Return tt) ∧
    data w2 = data w1.
Proof.
  intros Hok Hexec Hok'.
  split; [apply create_statements_prefix|].
  split; [apply create_statements_tables|].
  eexists _, _. rewrite (Init_returns env) by done.
  split; [reflexivity|].
  assert (foldl (fun db q => run_statement (sql env) q db) (data w)
            create_statements = create_all (data w)) as Hdb.
  { apply foldl_run_statement_create. intros q Hq.
    split; [by apply create_statements_prefix|by apply Hexec]. }
  unfold with_log, with_data. cbn [data]. rewrite Hdb. split; [done|].
  split; [apply dom_create_all|].
  split; [apply foldl_add_table_subseteq|].
  rewrite (Init_returns env') by done.
  split; [reflexivity|]. unfold with_log, with_data. cbn [data].
  apply foldl_run_statement_present. intros q Hq.
  split; [by apply create_statements_prefix|].
  rewrite dom_create_all, <- create_statements_tables.
  apply elem_of_union_r, elem_of_list_to_set, list_elem_of_fmap.
  by exists q.
Qed.

(** C7.  The datasource [GetDataSource] returns has the path
    [../data/msupply.db], the join of [..], [data] and [msupply.db],
    whatever the environment and the database; and it is returned whenever
    [Init] meets no failure. *)
Theorem GetDataSource_Path (env : Env) (w : World Sql.Database) :
  (∀ w' datasource,
     GetDataSource env w = (w', Return datasource) →
     Path datasource = "../data/msupply.db") ∧
  Filepath.Join [".."; "data"; "msupply.db"] = "../data/msupply.db" ∧
  (no_failure env "../data/msupply.db" →
   ∃ w',
     GetDataSource env w =
     (w', Return {| instanceManager :=
                      NewInstanceManager getDataSourceInstanceSettings;
                    Path := "../data/msupply.db" |})).
Proof.
  assert (Filepath.Join [".."; "data"; "msupply.db"] = "../data/msupply.db")
    as Hjoin by reflexivity.
  unfold GetDataSource, log_Info, log_Debug. rewrite Hjoin.
  rewrite !bind_log. split_and!; [|done|].
  - intros w' datasource. unfold bind, ret.
    destruct (Init _ _ _) as [w1 [[]|v]]; intros; by simplify_eq.
  - intros Hok. unfold bind. rewrite Init_returns by done. by eexists.
Qed.

End InitProperties.

(** [Init] does not check what [stmt.Exec()] returns: with a database file
    that cannot be written, every [stmt.Exec()] fails, [Init] still returns,
    and the database is left without its tables. *)
Example Init_returns_when_Exec_fails :
  let env :=
    {| Dbstore.sql :=
         {| Sql.sql_Open_error := fun _ _ => None;
            Sql.db_Ping_error := fun _ => None;
            Sql.db_Prepare_error := fun _ => None;
            Sql.stmt_Exec_error := fun _ =>
              Some "attempt to write a readonly database" |};
       Dbstore.os_Getenv := fun _ => "";
       Dbstore.json_Unmarshal := fun _ m => (m, None) |} in
  let datasource :=
    {| Dbstore.instanceManager :=
         Dbstore.NewInstanceManager Dbstore.getDataSourceInstanceSettings;
       Dbstore.Path := "../data/msupply.db" |} in
  let w := {| Runtime.data := (∅ : gmap string string); Runtime.logged := [] |} in
  ∃ w', Dbstore.Init env datasource w = (w', Go.Return tt) ∧ Runtime.data w' = ∅.
Proof. intros env datasource w. eexists. split; reflexivity. Qed.

Lemma Init_panics_on_failure_witness :
  let env :=
    {| Dbstore.sql :=
         {| Sql.sql_Open_error := fun _ _ => None;
            Sql.db_Ping_error := fun _ => None;
            Sql.db_Prepare_error := fun q =>
              if decide (q = Dbstore.create_ReportGroup)
              then Some "disk I/O error" else None;
            Sql.stmt_Exec_error := fun _ => None |};
       Dbstore.os_Getenv := fun _ => "";
       Dbstore.json_Unmarshal := fun _ m => (m, None) |} in
  let datasource :=
    {| Dbstore.instanceManager :=
         Dbstore.NewInstanceManager Dbstore.getDataSourceInstanceSettings;
       Dbstore.Path := "../data/msupply.db" |} in
  let w := {| Runtime.data := (∅ : gmap string string); Runtime.logged := [] |} in
  Schema.init_failure env datasource w ∧
  (∃ v, Runtime.outcome (Dbstore.Init env datasource w) = Go.Panic v) ∧
  Runtime.outcome (Dbstore.Init env datasource w) ≠ Go.Return tt.
Proof.
  intros env datasource w.
  assert (Schema.init_failure env datasource w) as Hfail.
  { right; right. exists Dbstore.create_ReportGroup, "disk I/O error".
    split; [|reflexivity]. apply create_statements_elem. }
  split; [exact Hfail|].
  exact (Init_panics_on_failure env datasource w Hfail).
Defined.

(** The environment in which no call fails. *)
Lemma no_failure_example (path : string) :
  let env :=
    {| Dbstore.sql :=
         {| Sql.sql_Open_error := fun _ _ => None;
            Sql.db_Ping_error := fun _ => None;
            Sql.db_Prepare_error := fun _ => None;
            Sql.stmt_Exec_error := fun _ => None |};
       Dbstore.os_Getenv := fun _ => "";
       Dbstore.json_Unmarshal := fun _ m => (m, None) |} in
  Schema.no_failure env path ∧ Schema.no_exec_failure env.
Proof. by repeat split. Defined.

Lemma Init_creates_five_tables_idempotently_witness :
  let env :=
    {| Dbstore.sql :=
         {| Sql.sql_Open_error := fun _ _ => None;
            Sql.db_Ping_error := fun _ => None;
            Sql.db_Prepare_error := fun _ => None;
            Sql.stmt_Exec_error := fun _ => None |};
       Dbstore.os_Getenv := fun _ => "";
       Dbstore.json_Unmarshal := fun _ m => (m, None) |} in
  let datasource :=
    {| Dbstore.instanceManager :=
         Dbstore.NewInstanceManager Dbstore.getDataSourceInstanceSettings;
       Dbstore.Path := "../data/msupply.db" |} in
  let w := {| Runtime.data := (∅ : gmap string string); Runtime.logged := [] |} in
  (Schema.no_failure env (Dbstore.Path datasource) ∧ Schema.no_exec_failure env) ∧
  ∃ w1 w2,
    Dbstore.Init env datasource w = (w1, Go.Return tt) ∧
    Runtime.data w1 = Schema.create_all (Runtime.data w) ∧
    dom (Runtime.data w1) = dom (Runtime.data w) ∪ list_to_set Schema.table_names ∧
    Runtime.data w ⊆ Runtime.data w1 ∧
    Dbstore.Init env datasource w1 = (w2, Go.Return tt) ∧
    Runtime.data w2 = Runtime.data w1.
Proof.
  intros env datasource w.
  pose proof (no_failure_example (Dbstore.Path datasource)) as Hok.
  split; [exact Hok|].
  exact (proj2 (proj2 (Init_creates_five_tables_idempotently env env datasource w
                         (proj1 Hok) (proj2 Hok) (proj1 Hok)))).
Defined.

Lemma GetDataSource_Path_witness :
  let env :=
    {| Dbstore.sql :=
         {| Sql.sql_Open_error := fun _ _ => None;
            Sql.db_Ping_error := fun _ => None;
            Sql.db_Prepare_error := fun _ => None;
            Sql.stmt_Exec_error := fun _ => None |};
       Dbstore.os_Getenv := fun _ => "";
       Dbstore.json_Unmarshal := fun _ m => (m, None) |} in
  let w := {| Runtime.data := (∅ : gmap string string); Runtime.logged := [] |} in
  Schema.no_failure env "../data/msupply.db" ∧
  ∃ w',
    Dbstore.GetDataSource env w =
    (w', Go.Return
           {| Dbstore.instanceManager :=
                Dbstore.NewInstanceManager Dbstore.getDataSourceInstanceSettings;
              Dbstore.Path := "../data/msupply.db" |}).
Proof.
  intros env w.
  pose proof (proj1 (no_failure_example "../data/msupply.db")) as Hok.
  split; [exact Hok|].
  exact (proj2 (proj2 (GetDataSource_Path env w)) Hok).
Defined.

(** C3.  What the claim says of [Init] fails when a [stmt.Exec()] fails,
    because [Init] does not check it.  On an empty database, with the
    [stmt.Exec()] of the Config statement failing and every other call
    succeeding, [Init] returns and logs [Database initialized!] with four
    tables created and Config missing.  Run again on the database it left,
    with no call failing, [Init] returns and adds Config: the schema changes
    after an [Init] that had returned. *)
Theorem Init_returns_without_Config_then_adds_it :
  let env :=
    {| Dbstore.sql :=
         {| Sql.sql_Open_error := fun _ _ => None;
            Sql.db_Ping_error := fun _ => None;
            Sql.db_Prepare_error := fun _ => None;
            Sql.stmt_Exec_error := fun q =>
              if decide (q = Dbstore.create_Config)
              then Some "database is locked" else None |};
       Dbstore.os_Getenv := fun _ => "";
       Dbstore.json_Unmarshal := fun _ m => (m, None) |} in
  let env' :=
    {| Dbstore.sql :=
         {| Sql.sql_Open_error := fun _ _ => None;
            Sql.db_Ping_error := fun _ => None;
            Sql.db_Prepare_error := fun _ => None;
            Sql.stmt_Exec_error := fun _ => None |};
       Dbstore.os_Getenv := fun _ => "";
       Dbstore.json_Unmarshal := fun _ m => (m, None) |} in
  let datasource :=
    {| Dbstore.instanceManager :=
         Dbstore.NewInstanceManager Dbstore.getDataSourceInstanceSettings;
       Dbstore.Path := "../data/msupply.db" |} in
  let w := {| Runtime.data := (∅ : gmap string string); Runtime.logged := [] |} in
  let first := Dbstore.Init env datasource w in
  let second := Dbstore.Init env' datasource (Runtime.world first) in
  Runtime.outcome first = Go.Return tt ∧
  last (Runtime.logged (Runtime.world first)) =
    Some {| Runtime.level := Runtime.LevelInfo;
            Runtime.msg := "Database initialized!"; Runtime.args := [] |} ∧
  dom (Runtime.data (Runtime.world first)) =
    list_to_set
      ["Schedule"; "ReportGroup"; "ReportGroupMembership"; "ReportContent"] ∧
  Runtime.outcome second = Go.Return tt ∧
  dom (Runtime.data (Runtime.world second)) = list_to_set Schema.table_names ∧
  Runtime.data (Runtime.world second) ≠ Runtime.data (Runtime.world first).
Proof.
  intros env env' datasource w first second.
  split_and!; [reflexivity..|].
  intros Heq. apply (f_equal (fun db => db !! "Config")) in Heq.
  vm_compute in Heq. discriminate Heq.
Qed.

(** ** The rows of table Schedule: writing and reading back *)

Section ScheduleStoreProperties.
Import Go Dbstore ScheduleStore.

Lemma schedule_of_row_of_schedule (s : Schedule) :
  schedule_of_row (row_of_schedule s) = Some s.
Proof. by destruct s. Qed.

(** C8.  Writing a Schedule to the store and reading it back by its id
    returns the same Schedule; the schedules under other ids read as
    before. *)
Theorem Schedule_round_trip (s : Schedule)
    (rows : gmap string (list SqlValue)) :
  GetSchedule (sched_id s) (WriteSchedule s rows) = Ok s ∧
  ∀ id, id ≠ sched_id s →
    GetSchedule id (WriteSchedule s rows) = GetSchedule id rows.
Proof.
  unfold GetSchedule, WriteSchedule. split.
  - by rewrite lookup_insert_eq, schedule_of_row_of_schedule.
  - intros id Hid. by rewrite lookup_insert_ne.
Qed.

End ScheduleStoreProperties.

(** ** Package server: the test-email handler *)

Section ServerProperties.
Import Go Runtime Dbstore Server Handler.
Context {S EmailConfig Emailer ReportEmailer : Type}.
Variable deps : Collaborators S EmailConfig Emailer ReportEmailer.
Variable server : HttpServer.
Variable request : Request.
Variable w : World (ServerState S).

(** A call given [server.db], followed by the rest. *)
Lemma call_step {A B} (c : Call S A) (k : A → M (ServerState S) B)
    (s' : S) (a : A) (w0 : World (ServerState S)) :
  c (store (data w0)) = (s', Return a) →
  bind (call c) k w0 =
  k a {| data := {| store := s'; response := response (data w0) |};
         logged := logged w0 |}.
Proof. intros Hc. unfold bind, call. by rewrite Hc. Qed.

Ltac called := erewrite call_step by done; cbv beta iota.

(** The three lines of every error branch of the handler. *)
Lemma fail_step {B} (m : string) (e : error) (code : Z)
    (w0 : World (ServerState S)) :
  bind (log_Error m [LogString e])
    (fun _ => bind (http_Error e code) (fun _ => panic (PanicError e))) w0 =
  (after_error w0 (store (data w0)) [error_line m e] e code,
   @Panic B (PanicError e)).
Proof. reflexivity. Qed.

(** [http.Error] on a response whose status line is not sent yet sends the
    status it is given and the text, then a newline. *)
Lemma Http_Error_fresh (rw : Http.ResponseWriter) (e : error) (code : Z) :
  Http.status rw = None →
  Http.status (Http.Error e code rw) = Some code ∧
  Http.body (Http.Error e code rw) = Http.body rw +:+ e +:+ Http.newline.
Proof.
  intros Hfresh. unfold Http.Error, Http.Write, Http.WriteHeader. simpl.
  by rewrite Hfresh.
Qed.

(** C5.  When [NewEmailConfig], [NewAuthConfig] (through the [GetSettings]
    it calls) or [GetSettings] returns an error, the handler logs it, writes
    the error with status 500 to the response and then panics with it; when
    [GetSchedule] returns an error it does the same with status 400.  The
    world the panic leaves holds the written response, whose status is the
    one given to [http.Error] when nothing was sent before. *)
Theorem testEmail_writes_error_then_panics :
  (∀ s1 e,
     NewEmailConfig deps (db server) (store (data w)) = (s1, Return (Err e)) →
     testEmail deps server request w =
     (after_error w s1 [error_line "testEmail: auth.NewEmailConfig: " e]
        e Http.StatusInternalServerError,
      Panic (PanicError e))) ∧
  (∀ s1 emailConfig s2 e,
     NewEmailConfig deps (db server) (store (data w)) =
       (s1, Return (Ok emailConfig)) →
     GetSettings deps (db server) s1 = (s2, Return (Err e)) →
     testEmail deps server request w =
     (after_error w s2
        [error_line "NewAuthConfig: datasource.GetSettings(): " e;
         error_line "textEmail: auth.NewAuthConfig: " e]
        e Http.StatusInternalServerError,
      Panic (PanicError e))) ∧
  (∀ s1 emailConfig s2 settings s3 e,
     NewEmailConfig deps (db server) (store (data w)) =
       (s1, Return (Ok emailConfig)) →
     GetSettings deps (db server) s1 = (s2, Return (Ok settings)) →
     GetSettings deps (db server) s2 = (s3, Return (Err e)) →
     testEmail deps server request w =
     (after_error w s3 [error_line "testEmail: db.GetSettings: " e]
        e Http.StatusInternalServerError,
      Panic (PanicError e))) ∧
  (∀ s1 emailConfig s2 settings s3 settings' s4 e,
     NewEmailConfig deps (db server) (store (data w)) =
       (s1, Return (Ok emailConfig)) →
     GetSettings deps (db server) s1 = (s2, Return (Ok settings)) →
     GetSettings deps (db server) s2 = (s3, Return (Ok settings')) →
     GetSchedule deps (db server) (schedule_id request) s3 =
       (s4, Return (Err e)) →
     testEmail deps server request w =
     (after_error w s4 [error_line "testData: server.db.GetSchedule: " e]
        e Http.StatusBadRequest,
      Panic (PanicError e))) ∧
  (Http.status (response (data w)) = None →
   ∀ s lines e code,
     Http.status (response (data (after_error w s lines e code))) = Some code).
Proof.
  unfold testEmail, Auth.NewAuthConfig. split_and!; intros;
    [| | | |by apply Http_Error_fresh].
  - called. reflexivity.
  - called. rewrite bind_bind. called. rewrite bind_bind.
    unfold log_Error at 1. rewrite bind_log, bind_ret. cbv beta iota.
    rewrite fail_step. unfold after_error, Schema.with_log.
    cbn [data logged store response]. by rewrite <- (assoc_L (++)).
  - called. rewrite bind_bind. called. rewrite bind_ret. cbv beta iota.
    called. reflexivity.
  - called. rewrite bind_bind. called. rewrite bind_ret. cbv beta iota.
    called. called. reflexivity.
Qed.

(** C6.  The handler is keyed by the route variable [schedule-id]: that is
    all it reads of the request; the id it gives [GetSchedule] is the value
    of that variable, and the schedule [GetSchedule] returns for it is the
    one given to [CreateReport].  When every call succeeds the handler
    answers 200. *)
Theorem testEmail_keyed_by_schedule_id :
  (∀ request',
     mux_Vars request' !! "schedule-id" = mux_Vars request !! "schedule-id" →
     testEmail deps server request' w = testEmail deps server request w) ∧
  (∀ s1 emailConfig s2 settings s3 settings' s4 schedule s5,
     NewEmailConfig deps (db server) (store (data w)) =
       (s1, Return (Ok emailConfig)) →
     GetSettings deps (db server) s1 = (s2, Return (Ok settings)) →
     GetSettings deps (db server) s2 = (s3, Return (Ok settings')) →
     GetSchedule deps (db server)
       (default "" (mux_Vars request !! "schedule-id")) s3 =
       (s4, Return (Ok schedule)) →
     CreateReport deps (NewReportEmailer deps (db server)) schedule
       {| Auth.Username := GrafanaUsername settings;
          Auth.Password := GrafanaPassword settings;
          Auth.URL := GrafanaURL settings |}
       (DatasourceID settings') (emailer_New deps emailConfig) s4 =
       (s5, Return tt) →
     testEmail deps server request w = (after_success w s5, Return tt)).
Proof.
  split.
  - intros request' Hvars. unfold testEmail. by rewrite Hvars.
  - intros. unfold testEmail, Auth.NewAuthConfig.
    called. rewrite bind_bind. called. rewrite bind_ret. cbv beta iota.
    called. called. called. reflexivity.
Qed.

End ServerProperties.

Lemma testEmail_writes_error_then_panics_witness :
  let w := Handler.example_world ∅ in
  let e := "sql: no rows in result set" in
  Server.GetSchedule Handler.example_collaborators
    (Server.db Handler.example_server)
    (Handler.schedule_id Handler.example_request) ∅ = (∅, Go.Return (Go.Err e)) ∧
  Server.testEmail Handler.example_collaborators Handler.example_server
    Handler.example_request w =
  (Handler.after_error w ∅
     [Handler.error_line "testData: server.db.GetSchedule: " e]
     e Http.StatusBadRequest,
   Go.Panic (Go.PanicError e)) ∧
  Http.status
    (Server.response
       (Runtime.data
          (Handler.after_error w ∅
             [Handler.error_line "testData: server.db.GetSchedule: " e]
             e Http.StatusBadRequest))) = Some 400.
Proof.
  intros w e.
  pose proof (testEmail_writes_error_then_panics Handler.example_collaborators
                Handler.example_server Handler.example_request w)
    as (_ & _ & _ & Hschedule & Hstatus).
  split; [reflexivity|]. split.
  - eapply Hschedule; reflexivity.
  - by apply Hstatus.
Defined.

Lemma testEmail_keyed_by_schedule_id_witness :
  let rows := ScheduleStore.WriteSchedule Handler.example_schedule ∅ in
  let w := Handler.example_world rows in
  Server.GetSchedule Handler.example_collaborators
    (Server.db Handler.example_server)
    (default "" (Server.mux_Vars Handler.example_request !! "schedule-id")) rows =
    (rows, Go.Return (Go.Ok Handler.example_schedule)) ∧
  Server.testEmail Handler.example_collaborators Handler.example_server
    Handler.example_request w =
  (Handler.after_success w rows, Go.Return tt).
Proof.
  intros rows w. split; [reflexivity|].
  eapply (proj2 (testEmail_keyed_by_schedule_id Handler.example_collaborators
                   Handler.example_server Handler.example_request w));
    reflexivity.
Defined.

(* ===================================================================== *)
(** * Part III: further properties of the packages *)
(* ===================================================================== *)

(** ** Package auth: where the credentials go *)

Section AuthPlacement.
Import Go Runtime Substring Auth.
Context {D : Type}.

(** Two ways to cut one string: the shorter head is a head of the longer. *)
Lemma string_app_split (x y u v : string) :
  x +:+ y = u +:+ v →
  (String.length x <= String.length u)%nat →
  ∃ c, u = x +:+ c ∧ y = c +:+ v.
Proof.
  revert u. induction x as [|a x IH]; intros u Heq Hlen.
  - exists u. by rewrite string_app_nil_l in Heq.
  - destruct u as [|b u]; simpl in Hlen; [lia|].
    rewrite !string_app_cons in Heq. simplify_eq.
    destruct (IH u) as (c & -> & ->); [done|lia|]. by exists c.
Qed.

(** Where the first occurrence stands does not depend on what follows it. *)
Lemma first_occurrence_suffix (lit pre post post' : string) :
  first_occurrence lit (pre +:+ lit +:+ post) pre post →
  first_occurrence lit (pre +:+ lit +:+ post') pre post'.
Proof.
  intros [_ Hmin]. split; [done|]. intros a b Heq.
  destruct (decide (String.length pre <= String.length a)%nat) as [|Hlt]; [done|].
  rewrite <- !string_app_assoc in Heq. symmetry in Heq.
  apply string_app_split in Heq as (c & Hc & ->);
    [|rewrite !string_length_app; lia].
  apply (Hmin a (c +:+ post)).
  by rewrite <- (string_app_assoc pre), Hc, !string_app_assoc.
Qed.

(** A first occurrence is where the search finds the literal. *)
Lemma first_occurrence_found (lit s pre post : string) :
  first_occurrence lit s pre post →
  Regexp.FindStringIndex (Regexp.MustCompile lit) s =
  Some (String.length pre, String.length (pre +:+ lit)).
Proof.
  intros [Heq Hmin]. pose proof (FindStringIndex_spec lit s) as Hspec.
  destruct (Regexp.FindStringIndex _ s) as [[a b]|].
  - destruct Hspec as (pre' & post' & [Heq' Hmin'] & -> & ->).
    assert (String.length pre' = String.length pre) as Hlen.
    { apply Hmin in Heq'. apply Hmin' in Heq. lia. }
    by rewrite !string_length_app, Hlen.
  - destruct Hspec. by exists pre, post.
Qed.

(** The credentials go right after a first [http://], whatever follows. *)
Lemma inject_after_first_http (config : AuthConfig) (pre post : string)
    (w : World D) :
  first_occurrence "http://" (URL config) pre post →
  InjectAuthString config w =
  (w, Return (pre +:+ "http://" +:+ Username config +:+ ":"
              +:+ Password config +:+ "@" +:+ post)).
Proof.
  intros Hfirst. unfold InjectAuthString.
  rewrite (first_occurrence_found _ _ _ _ Hfirst).
  unfold ret; cbn [snd]. by rewrite (splice_at _ _ _ _ (proj1 Hfirst)).
Qed.

Lemma first_occurrence_at_start (lit post : string) :
  first_occurrence lit (lit +:+ post) "" post.
Proof. split; [done|]. intros; simpl; lia. Qed.

(** X1.  For a URL that begins with [http://] the result is [http://], the
    credentials, and the rest of the URL as it is, whatever the rest
    holds. *)
Theorem InjectAuthString_leading_http (username password rest : string)
    (w : World D) :
  InjectAuthString
    {| Username := username; Password := password;
       URL := "http://" +:+ rest |} w =
  (w, Return ("http://" +:+ username +:+ ":" +:+ password +:+ "@" +:+ rest)).
Proof.
  rewrite (inject_after_first_http _ "" rest w); [reflexivity|].
  cbn [URL]. apply first_occurrence_at_start.
Qed.

(** The search from byte [i] is the search from byte 0, moved by [i]. *)
Lemma find_from_shift (lit s : string) (i : nat) :
  Regexp.find_from lit s i =
  (fun ab => ((i + ab.1)%nat, (i + ab.2)%nat)) <$> Regexp.find_from lit s 0.
Proof.
  revert i. induction s as [|c s IH]; intros i.
  - rewrite (find_from_unfold lit "" i), (find_from_unfold lit "" 0).
    destruct (String.prefix lit ""); simpl; [|done]. f_equal; f_equal; lia.
  - rewrite (find_from_unfold lit (String c s) i),
      (find_from_unfold lit (String c s) 0).
    destruct (String.prefix lit (String c s)); simpl.
    { f_equal; f_equal; lia. }
    rewrite (IH (S i)), (IH 1%nat).
    destruct (Regexp.find_from lit s 0) as [[a b]|]; simpl; [|done].
    f_equal; f_equal; lia.
Qed.

Lemma find_from_Some_contains (lit s : string) (ab : nat * nat) :
  Regexp.find_from lit s 0 = Some ab → contains lit s.
Proof.
  intros Hsome. pose proof (find_from_spec lit s 0) as Hspec.
  rewrite Hsome in Hspec. destruct ab as [a b].
  destruct Hspec as (pre & post & [Heq _] & _). by exists pre, post.
Qed.

(** X2.  For a URL that begins with [https://]: when the rest holds no
    [http://], the credentials go right after the leading [https://]; when
    the rest holds an [http://], they go where they go in the rest alone,
    and the leading [https://] is followed by the rest's own text. *)
Theorem InjectAuthString_leading_https (username password rest : string)
    (w : World D) :
  (¬ contains "http://" rest →
   InjectAuthString
     {| Username := username; Password := password;
        URL := "https://" +:+ rest |} w =
   (w, Return ("https://" +:+ username +:+ ":" +:+ password +:+ "@" +:+ rest))) ∧
  (contains "http://" rest →
   ∃ injected,
     InjectAuthString
       {| Username := username; Password := password; URL := rest |} w =
     (w, Return injected) ∧
     InjectAuthString
       {| Username := username; Password := password;
          URL := "https://" +:+ rest |} w =
     (w, Return ("https://" +:+ injected))).
Proof.
  assert (Regexp.FindStringIndex (Regexp.MustCompile "http://")
            ("https://" +:+ rest) =
          (fun ab => ((8 + ab.1)%nat, (8 + ab.2)%nat)) <$>
            Regexp.FindStringIndex (Regexp.MustCompile "http://") rest)
    as Hsearch.
  { unfold Regexp.FindStringIndex. cbn [Regexp.literal].
    rewrite <- find_from_shift. reflexivity. }
  assert (Regexp.FindStringIndex (Regexp.MustCompile "https://")
            ("https://" +:+ rest) = Some (0%nat, 8%nat)) as Hhttps.
  { apply (first_occurrence_found "https://" _ "" rest),
      first_occurrence_at_start. }
  unfold InjectAuthString. cbn [URL Username Password]. rewrite Hsearch.
  destruct (Regexp.FindStringIndex (Regexp.MustCompile "http://") rest)
    as [[a b]|] eqn:Hrest.
  - split; [intros Hnot; destruct Hnot; by eapply find_from_Some_contains|].
    intros _. eexists. split; reflexivity.
  - split; [|intros Hin; by apply find_from_None in Hrest]. intros _.
    cbn [fmap option_fmap option_map]. rewrite Hhttps.
    unfold ret. do 2 f_equal.
    exact (splice_at
             {| Username := username; Password := password;
                URL := "https://" +:+ rest |} "https://" "" rest eq_refl).
Qed.

(** X3.  Injecting credentials into a URL that already carries injected
    credentials after its first [http://] does not replace them: the new
    credentials are put between the scheme and the old ones. *)
Theorem InjectAuthString_twice (config : AuthConfig)
    (username password : string) (w : World D) :
  contains "http://" (URL config) →
  ∃ pre post,
    first_occurrence "http://" (URL config) pre post ∧
    InjectAuthString config w =
    (w, Return (pre +:+ "http://" +:+ AuthString config +:+ post)) ∧
    InjectAuthString
      {| Username := username; Password := password;
         URL := pre +:+ "http://" +:+ AuthString config +:+ post |} w =
    (w, Return (pre +:+ "http://" +:+ username +:+ ":" +:+ password +:+ "@"
                +:+ AuthString config +:+ post)).
Proof.
  intros Hin. pose proof (FindStringIndex_spec "http://" (URL config)) as Hspec.
  destruct (Regexp.FindStringIndex _ (URL config)) as [[a b]|] eqn:Hfind; [|done].
  destruct Hspec as (pre & post & Hfirst & _). exists pre, post.
  split; [done|]. split.
  - rewrite (inject_after_first_http config pre post) by done.
    unfold AuthString. by rewrite !string_app_assoc.
  - rewrite (inject_after_first_http _ pre (AuthString config +:+ post) w);
      [reflexivity|].
    cbn [URL]. apply (first_occurrence_suffix _ _ post).
    by rewrite <- (proj1 Hfirst).
Qed.

Lemma not_contains_not_found (lit s : string) :
  ¬ contains lit s →
  Regexp.FindStringIndex (Regexp.MustCompile lit) s = None.
Proof.
  intros Hnot. pose proof (FindStringIndex_spec lit s) as Hspec.
  destruct (Regexp.FindStringIndex _ s) as [[a b]|]; [|done].
  destruct Hspec as (pre & post & [Heq _] & _). destruct Hnot. by exists pre, post.
Qed.

(** X4.  [NewAuthConfig] hands on the error of [GetSettings], after one
    line of log, and otherwise builds the configuration from the settings
    without looking at them.  For settings whose URL begins with [http://]
    the [AuthURL] of the configuration is that URL with the Grafana user and
    password after the scheme; for settings whose URL holds no scheme
    [NewAuthConfig] still succeeds, and [AuthURL] is the empty string. *)
Theorem NewAuthConfig_then_AuthURL
    (GetSettings : Dbstore.SQLiteDatasource → M D (Result Dbstore.Settings))
    (datasource : Dbstore.SQLiteDatasource) (w : World D) :
  (∀ w1 e,
     GetSettings datasource w = (w1, Return (Err e)) →
     NewAuthConfig GetSettings datasource w =
     (Schema.with_log w1 LevelError "NewAuthConfig: datasource.GetSettings(): "
        [LogString e],
      Return (Err e))) ∧
  (∀ w1 settings,
     GetSettings datasource w = (w1, Return (Ok settings)) →
     ∃ config,
       NewAuthConfig GetSettings datasource w = (w1, Return (Ok config)) ∧
       (∀ rest,
          Dbstore.GrafanaURL settings = "http://" +:+ rest →
          AuthURL config w1 =
          (w1, Return ("http://" +:+ Dbstore.GrafanaUsername settings +:+ ":"
                       +:+ Dbstore.GrafanaPassword settings +:+ "@" +:+ rest))) ∧
       (¬ contains "http://" (Dbstore.GrafanaURL settings) →
        ¬ contains "https://" (Dbstore.GrafanaURL settings) →
        AuthURL config w1 =
        (Schema.with_log w1 LevelInfo
           ("Error injecting Auth: " +:+ Dbstore.GrafanaURL settings) [],
         Return ""))).
Proof.
  unfold NewAuthConfig, bind. split.
  - intros w1 e ->. reflexivity.
  - intros w1 settings ->. eexists. split; [reflexivity|]. split.
    + intros rest Hurl. unfold AuthURL.
      rewrite (inject_after_first_http _ "" rest w1); [reflexivity|].
      cbn [URL]. rewrite Hurl. apply first_occurrence_at_start.
    + intros Hhttp Hhttps. unfold AuthURL, InjectAuthString. cbn [URL].
      by rewrite !not_contains_not_found.
Qed.

End AuthPlacement.

Lemma InjectAuthString_leading_https_witness :
  let w := {| Runtime.data := tt; Runtime.logged := [] |} in
  Substring.contains "http://" "grafana/login?next=http://inner" ∧
  ∃ injected,
    Auth.InjectAuthString
      {| Auth.Username := "admin"; Auth.Password := "secret";
         Auth.URL := "grafana/login?next=http://inner" |} w =
    (w, Go.Return injected) ∧
    Auth.InjectAuthString
      {| Auth.Username := "admin"; Auth.Password := "secret";
         Auth.URL := "https://" +:+ "grafana/login?next=http://inner" |} w =
    (w, Go.Return ("https://" +:+ injected)).
Proof.
  intros w.
  assert (Substring.contains "http://" "grafana/login?next=http://inner") as Hin.
  { by exists "grafana/login?next=", "inner". }
  split; [exact Hin|].
  exact (proj2 (InjectAuthString_leading_https "admin" "secret"
                  "grafana/login?next=http://inner" w) Hin).
Defined.

Lemma InjectAuthString_twice_witness :
  let config :=
    {| Auth.Username := "admin"; Auth.Password := "secret";
       Auth.URL := "http://localhost:3000/d/stock" |} in
  let w := {| Runtime.data := tt; Runtime.logged := [] |} in
  Substring.contains "http://" (Auth.URL config) ∧
  ∃ pre post,
    Substring.first_occurrence "http://" (Auth.URL config) pre post ∧
    Auth.InjectAuthString config w =
    (w, Go.Return (pre +:+ "http://" +:+ Auth.AuthString config +:+ post)) ∧
    Auth.InjectAuthString
      {| Auth.Username := "viewer"; Auth.Password := "pw";
         Auth.URL := pre +:+ "http://" +:+ Auth.AuthString config +:+ post |} w =
    (w, Go.Return (pre +:+ "http://" +:+ "viewer" +:+ ":" +:+ "pw" +:+ "@"
                   +:+ Auth.AuthString config +:+ post)).
Proof.
  intros config w.
  assert (Substring.contains "http://" (Auth.URL config)) as Hin.
  { by exists "", "localhost:3000/d/stock". }
  split; [exact Hin|].
  exact (InjectAuthString_twice config "viewer" "pw" w Hin).
Defined.

Lemma NewAuthConfig_then_AuthURL_witness :
  let settings :=
    {| Dbstore.GrafanaUsername := "admin"; Dbstore.GrafanaPassword := "secret";
       Dbstore.GrafanaURL := "http://" +:+ "localhost:3000";
       Dbstore.DatasourceID := 1 |} in
  let GetSettings :=
    fun (_ : Dbstore.SQLiteDatasource) (w : Runtime.World unit) =>
      (w, Go.Return (Go.Ok settings)) in
  let w := {| Runtime.data := tt; Runtime.logged := [] |} in
  GetSettings (Server.db Handler.example_server) w =
    (w, Go.Return (Go.Ok settings)) ∧
  ∃ config,
    Auth.NewAuthConfig GetSettings (Server.db Handler.example_server) w =
      (w, Go.Return (Go.Ok config)) ∧
    Auth.AuthURL config w =
      (w, Go.Return ("http://" +:+ "admin" +:+ ":" +:+ "secret" +:+ "@"
                     +:+ "localhost:3000")).
Proof.
  intros settings GetSettings w. split; [reflexivity|].
  destruct (proj2 (NewAuthConfig_then_AuthURL GetSettings
                     (Server.db Handler.example_server) w) w settings eq_refl)
    as (config & Hconfig & Hhttp & _).
  exists config. split; [exact Hconfig|].
  exact (Hhttp "localhost:3000" eq_refl).
Defined.

(** ** Package dbstore: what a run does, by what the environment reports *)

Section RunsByEnvironment.
Import Go Runtime Backend Dbstore Schema InitRun.

Ltac use_prepared :=
  repeat match goal with
  | H : Sql.db_Prepare_error _ _ = _ |- _ => rewrite H
  end.

(** One statement of [Init]: when its [Prepare] fails the run ends at
    [stmt.Exec()] on the nil statement, as [run_statements] has it;
    otherwise the statement runs and the run goes on. *)
Ltac statement :=
  rewrite DB_Prepare_step;
  match goal with
  | |- context [Sql.db_Prepare_error ?env ?q] =>
    let H := fresh "Hprep" in
    destruct (Sql.db_Prepare_error env q) as [?|] eqn:H;
    [reflexivity|];
    rewrite Stmt_Exec_step, ?fatal_None_step;
    rewrite ?(defer_returns (Sql.Stmt_Close (Some _)))
      by (intros; apply Stmt_Close_returns);
    rewrite ?fatal_None_step
  end.

(** Every run of [Init]. *)
Lemma Init_by_environment (env : Env) (datasource : SQLiteDatasource)
    (w : World Sql.Database) :
  Init env datasource w =
  match Sql.sql_Open_error (sql env) "sqlite3" (Path datasource) with
  | Some e =>
    (with_log (started w) LevelError "Ping - sql.Open: " [LogString e],
     Panic NilPointerDereference)
  | None =>
    match Sql.db_Ping_error (sql env) (Path datasource) with
    | Some e =>
      (with_log
         (with_log (started w) LevelWarn "Ping - sql.Ping: " [LogString e])
         LevelError "FATAL. Init - Ping. " [LogString e],
       Panic (PanicError e))
    | None =>
      match run_statements (sql env) create_statements (data w) with
      | (db, true) =>
        (with_log (with_data (started w) db) LevelInfo "Database initialized!" [],
         Return tt)
      | (db, false) =>
        (with_data (started w) db, Panic NilPointerDereference)
      end
    end
  end.
Proof.
  unfold Init, log_Info. rewrite bind_log. unfold bind at 1.
  rewrite Ping_unfold. cbv zeta.
  destruct (Sql.sql_Open_error _ _ _) as [e|] eqn:Hopen; [reflexivity|].
  destruct (Sql.db_Ping_error _ _) as [e|] eqn:Hping; [reflexivity|].
  rewrite fatal_None_step. unfold Sql.Open. rewrite Hopen.
  rewrite defer_returns by done. rewrite fatal_None_step.
  unfold create_statements. cbn [run_statements].
  do 5 statement. reflexivity.
Qed.

Lemma run_statements_all (env : Sql.Env) (stmts : list string)
    (db : Sql.Database) :
  (∀ q, q ∈ stmts → Sql.db_Prepare_error env q = None) →
  run_statements env stmts db =
  (foldl (fun db q => run_statement env q db) db stmts, true).
Proof.
  revert db. induction stmts as [|q rest IH]; intros db Hall; [done|]. simpl.
  rewrite (Hall q) by left. apply IH. intros q' Hq'. apply Hall. by right.
Qed.

Lemma run_statements_prepared (env : Sql.Env) (stmts : list string)
    (db : Sql.Database) :
  (run_statements env stmts db).2 = true →
  ∀ q, q ∈ stmts → Sql.db_Prepare_error env q = None.
Proof.
  revert db. induction stmts as [|q rest IH]; intros db Hok q' Hq'.
  - by apply elem_of_nil in Hq'.
  - simpl in Hok. destruct (Sql.db_Prepare_error env q) eqn:Hq; [done|].
    apply elem_of_cons in Hq' as [->|Hq']; [done|]. by eapply IH.
Qed.

Lemma run_statements_first_failure (env : Sql.Env) (stmts : list string)
    (db : Sql.Database) (k : nat) (q : string) (e : error) :
  stmts !! k = Some q →
  Sql.db_Prepare_error env q = Some e →
  (∀ q', q' ∈ take k stmts → Sql.db_Prepare_error env q' = None) →
  run_statements env stmts db =
  (foldl (fun db q => run_statement env q db) db (take k stmts), false).
Proof.
  revert db k. induction stmts as [|q0 rest IH]; intros db k Hk Hq Hbefore;
    [done|].
  destruct k as [|k]; simpl in *.
  - simplify_eq. by rewrite Hq.
  - rewrite (Hbefore q0) by left. apply IH; [done..|].
    intros q' Hq'. apply Hbefore. by right.
Qed.

(** A statement never drops or changes a table, and adds at most its own. *)
Lemma run_statement_grows (env : Sql.Env) (q : string) (db : Sql.Database) :
  String.prefix Sql.create_table_if_not_exists q = true →
  db ⊆ run_statement env q db ∧
  dom (run_statement env q db) ⊆ dom db ∪ {[(table_of q).1]}.
Proof.
  intros Hq. unfold run_statement.
  destruct (Sql.stmt_Exec_error env q).
  { split; [done|]. apply union_subseteq_l. }
  rewrite sqlite_exec_create by done.
  split; [apply add_table_subseteq|]. by rewrite dom_add_table.
Qed.

Lemma run_statements_grow (env : Sql.Env) (stmts : list string)
    (db : Sql.Database) :
  (∀ q, q ∈ stmts → String.prefix Sql.create_table_if_not_exists q = true) →
  db ⊆ (run_statements env stmts db).1 ∧
  dom (run_statements env stmts db).1 ⊆
    dom db ∪ list_to_set ((fun q => (table_of q).1) <$> stmts).
Proof.
  revert db. induction stmts as [|q rest IH]; intros db Hall; simpl.
  - split; [done|]. apply union_subseteq_l.
  - destruct (Sql.db_Prepare_error env q).
    { split; [done|]. apply union_subseteq_l. }
    destruct (run_statement_grows env q db) as [Hsub Hdom]; [apply Hall; by left|].
    destruct (IH (run_statement env q db)) as [Hsub' Hdom'].
    { intros q' Hq'. apply Hall. by right. }
    split; [by etrans|].
    intros name Hname. apply Hdom' in Hname.
    apply elem_of_union in Hname as [Hname|Hname].
    + apply Hdom in Hname. apply elem_of_union in Hname as [Hname|Hname].
      * by apply elem_of_union_l.
      * by apply elem_of_union_r, elem_of_union_l.
    + by apply elem_of_union_r, elem_of_union_r.
Qed.

(** A table stays missing when every statement that names it fails at
    [stmt.Exec()]. *)
Lemma foldl_run_statement_missing (env : Sql.Env) (stmts : list string)
    (db : Sql.Database) (name : string) :
  (∀ q, q ∈ stmts → String.prefix Sql.create_table_if_not_exists q = true) →
  (∀ q, q ∈ stmts → (table_of q).1 = name →
     is_Some (Sql.stmt_Exec_error env q)) →
  name ∉ dom db →
  name ∉ dom (foldl (fun db q => run_statement env q db) db stmts).
Proof.
  revert db. induction stmts as [|q rest IH]; intros db Hprefix Hfail Hname;
    [done|]. simpl.
  apply IH.
  - intros q' Hq'. apply Hprefix. by right.
  - intros q' Hq'. apply Hfail. by right.
  - destruct (decide ((table_of q).1 = name)) as [Heq|Hne].
    + destruct (Hfail q) as [e He]; [by left|done|].
      unfold run_statement. by rewrite He.
    + destruct (run_statement_grows env q db) as [_ Hdom]; [apply Hprefix; by left|].
      intros Hin. apply Hdom in Hin.
      apply elem_of_union in Hin as [Hin|Hin]; [done|].
      apply elem_of_singleton in Hin. congruence.
Qed.

(** The five statements name five different tables. *)
Lemma create_statements_distinct (q q' : string) :
  q ∈ create_statements → q' ∈ create_statements →
  (table_of q').1 = (table_of q).1 → q' = q.
Proof.
  intros Hq Hq' Heq.
  apply in_create_statements in Hq. apply in_create_statements in Hq'.
  destruct_or!; subst q q'; try reflexivity; vm_compute in Heq; discriminate Heq.
Qed.

(** X5.  [Ping] leaves the database as it is.  It returns nil exactly when
    [sql.Open] and [db.Ping] both succeed, and returns an error exactly when
    [sql.Open] succeeds and [db.Ping] reports that error.  When [sql.Open]
    fails, [Ping] does not return its error: the deferred [db.Close()] on
    the nil database panics. *)
Theorem Ping_by_environment {D} (env : Env) (datasource : SQLiteDatasource)
    (w : World D) :
  data (world (Ping env datasource w)) = data w ∧
  (outcome (Ping env datasource w) = Return None ↔
   Sql.sql_Open_error (sql env) "sqlite3" (Path datasource) = None ∧
   Sql.db_Ping_error (sql env) (Path datasource) = None) ∧
  (∀ e, outcome (Ping env datasource w) = Return (Some e) ↔
   Sql.sql_Open_error (sql env) "sqlite3" (Path datasource) = None ∧
   Sql.db_Ping_error (sql env) (Path datasource) = Some e) ∧
  (∀ v, outcome (Ping env datasource w) = Panic v ↔
   v = NilPointerDereference ∧
   is_Some (Sql.sql_Open_error (sql env) "sqlite3" (Path datasource))).
Proof.
  rewrite Ping_unfold. cbv zeta.
  destruct (Sql.sql_Open_error _ _ _) as [e0|];
    [|destruct (Sql.db_Ping_error _ _) as [e1|]]; simpl;
    (split; [done|]); split_and!; intros; split;
    try (intros [? ?]); try (intros ?); simplify_eq; try done;
    try (by destruct select (is_Some None)).
Qed.

(** X6.  [CheckHealth] cannot report a failure of [sql.Open]: it panics
    with [Ping].  Whenever it returns, [sql.Open] succeeded, the database is
    as it was, and the status is [HealthStatusOk] exactly when [db.Ping]
    succeeded and [HealthStatusError] otherwise. *)
Theorem CheckHealth_by_environment {D} (env : Env)
    (datasource : SQLiteDatasource) (req : CheckHealthRequest) (w : World D) :
  (is_Some (Sql.sql_Open_error (sql env) "sqlite3" (Path datasource)) →
   outcome (CheckHealth env datasource req w) = Panic NilPointerDereference) ∧
  (∀ w' res err,
     CheckHealth env datasource req w = (w', Return (res, err)) →
     Sql.sql_Open_error (sql env) "sqlite3" (Path datasource) = None ∧
     data w' = data w ∧
     (Status res = HealthStatusOk ↔
      Sql.db_Ping_error (sql env) (Path datasource) = None) ∧
     (Status res = HealthStatusError ↔
      is_Some (Sql.db_Ping_error (sql env) (Path datasource)))).
Proof.
  unfold CheckHealth, bind. rewrite Ping_unfold. cbv zeta.
  destruct (Sql.sql_Open_error _ _ _) as [e0|].
  { split; [done|]. intros; simplify_eq. }
  split; [by intros [? ?]|]. intros w' res err.
  destruct (Sql.db_Ping_error _ _) as [e1|]; unfold ret; intros; simplify_eq;
    simpl; split_and!; try done; split; try done; by intros [? ?].
Qed.

(** X7.  When [sql.Open] and [Ping] succeed and a [Prepare] fails, [Init]
    panics at [stmt.Exec()] on the nil statement, with the runtime error
    and not with the error of [Prepare], before the FATAL line for that
    statement is logged.  The statements before the failed one have run
    and are not undone. *)
Theorem Init_stops_at_failed_Prepare (env : Env) (datasource : SQLiteDatasource)
    (w : World Sql.Database) (k : nat) (q : string) (e : error) :
  Sql.sql_Open_error (sql env) "sqlite3" (Path datasource) = None →
  Sql.db_Ping_error (sql env) (Path datasource) = None →
  create_statements !! k = Some q →
  Sql.db_Prepare_error (sql env) q = Some e →
  (∀ q', q' ∈ take k create_statements →
     Sql.db_Prepare_error (sql env) q' = None) →
  Init env datasource w =
  (with_data (started w)
     (foldl (fun db q => run_statement (sql env) q db) (data w)
        (take k create_statements)),
   Panic NilPointerDereference).
Proof.
  intros Hopen Hping Hk Hq Hbefore.
  rewrite Init_by_environment, Hopen, Hping.
  by rewrite (run_statements_first_failure _ _ _ k q e).
Qed.

(** X8.  A failure before the first statement leaves the database as it
    was.  When [sql.Open] fails, [Init] panics inside [Ping] with the
    runtime error of [db.Close()] on the nil database, and the only trace
    of the error of [sql.Open] is the log line of [Ping]; when [db.Ping]
    fails, [Init] logs the FATAL line and panics with that error. *)
Theorem Init_fails_before_statements (env : Env) (datasource : SQLiteDatasource)
    (w : World Sql.Database) :
  (∀ e,
     Sql.sql_Open_error (sql env) "sqlite3" (Path datasource) = Some e →
     Init env datasource w =
     (with_log (started w) LevelError "Ping - sql.Open: " [LogString e],
      Panic NilPointerDereference)) ∧
  (∀ e,
     Sql.sql_Open_error (sql env) "sqlite3" (Path datasource) = None →
     Sql.db_Ping_error (sql env) (Path datasource) = Some e →
     Init env datasource w =
     (with_log
        (with_log (started w) LevelWarn "Ping - sql.Ping: " [LogString e])
        LevelError "FATAL. Init - Ping. " [LogString e],
      Panic (PanicError e))) ∧
  ((is_Some (Sql.sql_Open_error (sql env) "sqlite3" (Path datasource)) ∨
    is_Some (Sql.db_Ping_error (sql env) (Path datasource))) →
   data (world (Init env datasource w)) = data w).
Proof.
  rewrite Init_by_environment. split_and!.
  - by intros e ->.
  - by intros e -> ->.
  - destruct (Sql.sql_Open_error _ _ _); [done|].
    destruct (Sql.db_Ping_error _ _); [done|]. by intros [[? ?]|[? ?]].
Qed.

(** X9.  [Init] does not check [stmt.Exec()]: when no [Prepare] fails it
    returns and its last log line is [Database initialized!], and a table
    that was missing is still missing when the [stmt.Exec()] of its
    statement failed. *)
Theorem Init_returns_without_table (env : Env) (datasource : SQLiteDatasource)
    (w : World Sql.Database) (q : string) :
  no_failure env (Path datasource) →
  q ∈ create_statements →
  is_Some (Sql.stmt_Exec_error (sql env) q) →
  (table_of q).1 ∉ dom (data w) →
  ∃ w',
    Init env datasource w = (w', Return tt) ∧
    ((table_of q).1 ∉ dom (data w')) ∧
    last (logged w') =
      Some {| level := LevelInfo; msg := "Database initialized!"; args := [] |}.
Proof.
  intros Hok Hq Hexec Hmissing. eexists.
  rewrite Init_returns by done. split; [reflexivity|]. split.
  - unfold with_log, with_data. cbn [data].
    apply foldl_run_statement_missing; [apply create_statements_prefix| |done].
    intros q' Hq' Hname.
    by rewrite (create_statements_distinct q q' Hq Hq' Hname).
  - unfold with_log at 1. cbn [logged]. apply last_snoc.
Qed.

(** X10.  Whatever fails, [Init] never drops or changes a table that was
    there, and never adds a table besides the five of its statements. *)
Theorem Init_only_adds_its_tables (env : Env) (datasource : SQLiteDatasource)
    (w : World Sql.Database) :
  data w ⊆ data (world (Init env datasource w)) ∧
  dom (data (world (Init env datasource w))) ⊆
    dom (data w) ∪ list_to_set table_names.
Proof.
  rewrite Init_by_environment.
  destruct (Sql.sql_Open_error _ _ _);
    [split; [done|apply union_subseteq_l]|].
  destruct (Sql.db_Ping_error _ _);
    [split; [done|apply union_subseteq_l]|].
  pose proof (run_statements_grow (sql env) create_statements (data w)
                create_statements_prefix) as Hgrow.
  rewrite create_statements_tables in Hgrow.
  by destruct (run_statements _ _ _) as [db []].
Qed.

(** X11.  [GetDataSource] returns a datasource exactly when [sql.Open],
    [db.Ping] and the five [Prepare] calls all succeed for the file
    [../data/msupply.db]; in every other case it panics. *)
Theorem GetDataSource_returns_iff (env : Env) (w : World Sql.Database) :
  ((∃ w' datasource, GetDataSource env w = (w', Return datasource)) ↔
   no_failure env "../data/msupply.db") ∧
  ((∃ v, outcome (GetDataSource env w) = Panic v) ↔
   ¬ no_failure env "../data/msupply.db").
Proof.
  assert (Filepath.Join [".."; "data"; "msupply.db"] = "../data/msupply.db")
    as Hjoin by reflexivity.
  unfold GetDataSource, log_Info, log_Debug. rewrite Hjoin, !bind_log.
  unfold bind, ret, outcome. rewrite Init_by_environment. cbn [Path].
  unfold no_failure.
  destruct (Sql.sql_Open_error _ _ _) as [e|].
  { split; split; [by intros (? & ? & ?)|by intros [? _]|by intros _ [? _]
                  |by eexists]. }
  destruct (Sql.db_Ping_error _ _) as [e|].
  { split; split; [by intros (? & ? & ?)|by intros (_ & ? & _)
                  |by intros _ (_ & ? & _)|by eexists]. }
  pose proof (run_statements_prepared (sql env) create_statements) as Hprepared.
  pose proof (run_statements_all (sql env) create_statements) as Hall.
  match goal with
  | |- context [run_statements _ _ ?db] =>
    specialize (Hprepared db); specialize (Hall db)
  end.
  destruct (run_statements _ _ _) as [db ok]. destruct ok.
  - specialize (Hprepared eq_refl).
    split; split; [done|by eexists _, _|by intros [? ?]|].
    intros Hnot. by destruct Hnot.
  - assert (¬ ∀ q, q ∈ create_statements →
                Sql.db_Prepare_error (sql env) q = None) as Hnot.
    { intros Hprep. by specialize (Hall Hprep). }
    split; split; [by intros (? & ? & ?)|by intros (_ & _ & ?)
                  |by intros _ (_ & _ & ?)|by eexists].
Qed.

(** X12.  [QueryData] leaves the database as it is and logs one line, the
    request, unless [APP_ENV] is [production], where it logs nothing: no
    query adds to the log. *)
Theorem QueryData_log {D} (env : Env) (datasource : SQLiteDatasource)
    (request : QueryDataRequest) (w : World D) :
  (os_Getenv env "APP_ENV" = "production" →
   world (QueryData env datasource request w) = w) ∧
  (os_Getenv env "APP_ENV" ≠ "production" →
   world (QueryData env datasource request w) =
   with_log w LevelInfo "QueryData" [LogString "request"; LogRequest request]).
Proof.
  unfold QueryData, log_Info.
  destruct (decide (os_Getenv env "APP_ENV" = "production")) as [Hprod|Hdev];
    [rewrite bind_ret|rewrite bind_log];
    unfold bind; rewrite query_each_unfold; by split.
Qed.

End RunsByEnvironment.

Lemma Init_stops_at_failed_Prepare_witness :
  let env :=
    {| Dbstore.sql :=
         {| Sql.sql_Open_error := fun _ _ => None;
            Sql.db_Ping_error := fun _ => None;
            Sql.db_Prepare_error := fun q =>
              if decide (q = Dbstore.create_ReportGroup)
              then Some "disk I/O error" else None;
            Sql.stmt_Exec_error := fun _ => None |};
       Dbstore.os_Getenv := fun _ => "";
       Dbstore.json_Unmarshal := fun _ m => (m, None) |} in
  let datasource :=
    {| Dbstore.instanceManager :=
         Dbstore.NewInstanceManager Dbstore.getDataSourceInstanceSettings;
       Dbstore.Path := "../data/msupply.db" |} in
  let w := {| Runtime.data := (∅ : gmap string string); Runtime.logged := [] |} in
  (Schema.create_statements !! 2%nat = Some Dbstore.create_ReportGroup ∧
   Sql.db_Prepare_error (Dbstore.sql env) Dbstore.create_ReportGroup =
     Some "disk I/O error" ∧
   ∀ q', q' ∈ take 2 Schema.create_statements →
     Sql.db_Prepare_error (Dbstore.sql env) q' = None) ∧
  Dbstore.Init env datasource w =
  (Schema.with_data (InitRun.started w)
     (foldl (fun db q => Schema.run_statement (Dbstore.sql env) q db) ∅
        (take 2 Schema.create_statements)),
   Go.Panic Go.NilPointerDereference).
Proof.
  intros env datasource w.
  assert (∀ q', q' ∈ take 2 Schema.create_statements →
            Sql.db_Prepare_error (Dbstore.sql env) q' = None) as Hbefore.
  { intros q' Hq'. simpl in Hq'.
    apply elem_of_cons in Hq' as [->|Hq']; [reflexivity|].
    apply list_elem_of_singleton in Hq' as ->. reflexivity. }
  split; [by split_and!|].
  exact (Init_stops_at_failed_Prepare env datasource w 2
           Dbstore.create_ReportGroup "disk I/O error"
           eq_refl eq_refl eq_refl eq_refl Hbefore).
Defined.

Lemma Init_returns_without_table_witness :
  let env :=
    {| Dbstore.sql :=
         {| Sql.sql_Open_error := fun _ _ => None;
            Sql.db_Ping_error := fun _ => None;
            Sql.db_Prepare_error := fun _ => None;
            Sql.stmt_Exec_error := fun q =>
              if decide (q = Dbstore.create_Config)
              then Some "database is locked" else None |};
       Dbstore.os_Getenv := fun _ => "";
       Dbstore.json_Unmarshal := fun _ m => (m, None) |} in
  let datasource :=
    {| Dbstore.instanceManager :=
         Dbstore.NewInstanceManager Dbstore.getDataSourceInstanceSettings;
       Dbstore.Path := "../data/msupply.db" |} in
  let w := {| Runtime.data := (∅ : gmap string string); Runtime.logged := [] |} in
  (Schema.no_failure env (Dbstore.Path datasource) ∧
   Dbstore.create_Config ∈ Schema.create_statements ∧
   is_Some (Sql.stmt_Exec_error (Dbstore.sql env) Dbstore.create_Config)) ∧
  ∃ w',
    Dbstore.Init env datasource w = (w', Go.Return tt) ∧
    ((Schema.table_of Dbstore.create_Config).1 ∉ dom (Runtime.data w')) ∧
    last (Runtime.logged w') =
      Some {| Runtime.level := Runtime.LevelInfo;
              Runtime.msg := "Database initialized!"; Runtime.args := [] |}.
Proof.
  intros env datasource w.
  assert (Schema.no_failure env (Dbstore.Path datasource)) as Hok
    by (by repeat split).
  assert (Dbstore.create_Config ∈ Schema.create_statements) as Hq
    by apply create_statements_elem.
  assert (is_Some (Sql.stmt_Exec_error (Dbstore.sql env) Dbstore.create_Config))
    as Hexec by (by eexists).
  split; [by split_and!|].
  apply (Init_returns_without_table env datasource w Dbstore.create_Config
           Hok Hq Hexec).
  simpl. rewrite dom_empty_L. apply not_elem_of_empty.
Defined.

(** ** Package auth and package server: further properties *)

Section HandlerOutcomes.
Import Go Runtime Substring Dbstore Server Handler.
Context {S EmailConfig Emailer ReportEmailer : Type}.
Variable deps : Collaborators S EmailConfig Emailer ReportEmailer.
Variable server : HttpServer.
Variable request : Request.
Variable w : World (ServerState S).


(** X14.  A request without the route variable [schedule-id] is served as
    a request whose [schedule-id] is the empty string: the handler asks
    [GetSchedule] for the schedule with the empty id. *)
Theorem testEmail_without_schedule_id :
  mux_Vars request !! "schedule-id" = None →
  schedule_id request = "" ∧
  testEmail deps server request w =
  testEmail deps server {| mux_Vars := {["schedule-id" := ""]} |} w.
Proof.
  intros Hnone. unfold schedule_id, testEmail. cbn [mux_Vars].
  by rewrite Hnone, lookup_singleton_eq.
Qed.

End HandlerOutcomes.

Lemma testEmail_without_schedule_id_witness :
  let request := {| Server.mux_Vars := ∅ |} in
  let w := Handler.example_world ∅ in
  Server.mux_Vars request !! "schedule-id" = None ∧
  Handler.schedule_id request = "" ∧
  Server.testEmail Handler.example_collaborators Handler.example_server request w =
  Server.testEmail Handler.example_collaborators Handler.example_server
    {| Server.mux_Vars := {["schedule-id" := ""]} |} w.
Proof.
  intros request w. split; [reflexivity|].
  exact (testEmail_without_schedule_id Handler.example_collaborators
           Handler.example_server request w eq_refl).
Defined.
